(** * StreamsForLovers: budget gate, command parser, job pollers

    A shallow embedding of the orchestration code of the repository
    (src/suno_api_client.py, src/main.py, src/background_generator.py,
    src/thunder_image_client.py) and the properties of its specification.

    Conventions of the embedding.
    - Python exceptions are the [Raise] results of the [result] monad.
    - Dollar amounts, which the source keeps in Python floats, are read as
      the rationals they denote ([Q]); the rounding of float addition is
      not part of the model.
    - Text is ASCII: characters above 127 are neither whitespace nor
      letters for [strip], [split], [lower], [upper] and [title].
    - The outside world (clock, HTTP replies, disk) is an explicit
      argument: every call of the source that reads it takes its answer
      from an environment record.
    - The collaborators that main.py imports but the repository does not
      contain (prompt_generator, queue_manager, obs_controller) appear as
      the calls made to them. *)

From Stdlib Require Import ZArith QArith Lia String Ascii List DecimalString.
From Stdlib Require Import PrimFloat.
From Stdlib Require DecimalPos DecimalZ.
From stdpp Require Import gmap strings list fin_maps.

Open Scope string_scope.
Open Scope Z_scope.

(** ** The Python runtime the sources rely on *)

Module Py.

Inductive exn :=
| IndexError | KeyError | AttributeError | TypeError | ValueError
| TimeoutError | ClientError | OSError.

Inductive result (A : Type) :=
| Ok (a : A)
| Raise (e : exn).
Arguments Ok {A} a.
Arguments Raise {A} e.

#[global] Instance result_ret : MRet result := @Ok.
#[global] Instance result_bind : MBind result := λ A B f m,
  match m with Ok a => f a | Raise e => Raise e end.

(** [try: ... except Exception: return None] *)
Definition except_None {A : Type} (m : result (option A)) : option A :=
  match m with Ok r => r | Raise _ => None end.

(** *** str *)

Definition isspace (c : ascii) : bool :=
  let n := N_of_ascii c in
  (((9 <=? n) && (n <=? 13)) || ((28 <=? n) && (n <=? 32)))%N.

Definition isupper (c : ascii) : bool :=
  let n := N_of_ascii c in ((65 <=? n) && (n <=? 90))%N.

Definition islower (c : ascii) : bool :=
  let n := N_of_ascii c in ((97 <=? n) && (n <=? 122))%N.

Definition lower_char (c : ascii) : ascii :=
  if isupper c then ascii_of_N (N_of_ascii c + 32) else c.

Definition upper_char (c : ascii) : ascii :=
  if islower c then ascii_of_N (N_of_ascii c - 32) else c.

Fixpoint map_chars (f : ascii → ascii) (s : string) : string :=
  match s with
  | EmptyString => EmptyString
  | String c s' => String (f c) (map_chars f s')
  end.

Definition lower : string → string := map_chars lower_char.
Definition upper : string → string := map_chars upper_char.

(** [s.title()]: a letter that follows a letter is lowered, any other
    letter is raised. *)
Fixpoint title_go (after_letter : bool) (s : string) : string :=
  match s with
  | EmptyString => EmptyString
  | String c s' =>
      if isupper c || islower c
      then String (if after_letter then lower_char c else upper_char c)
                  (title_go true s')
      else String c (title_go false s')
  end.
Definition title : string → string := title_go false.

Fixpoint lstrip (s : string) : string :=
  match s with
  | EmptyString => EmptyString
  | String c s' => if isspace c then lstrip s' else s
  end.

Fixpoint rstrip (s : string) : string :=
  match s with
  | EmptyString => EmptyString
  | String c s' =>
      match rstrip s' with
      | EmptyString => if isspace c then EmptyString else String c EmptyString
      | r => String c r
      end
  end.

Definition strip (s : string) : string := rstrip (lstrip s).

(** [s.startswith(c)] for a one-character prefix. *)
Definition startswith (c : ascii) (s : string) : bool :=
  match s with
  | String c' _ => bool_decide (c' = c)
  | EmptyString => false
  end.

(** [s[1:]] *)
Definition tail (s : string) : string :=
  match s with
  | String _ s' => s'
  | EmptyString => EmptyString
  end.

(** [s.split()]: the maximal runs of non-whitespace characters;
    [cur] is the run being read. *)
Fixpoint split_go (cur : string) (s : string) : list string :=
  match s with
  | EmptyString => match cur with EmptyString => [] | _ => [cur] end
  | String c s' =>
      if isspace c
      then match cur with
           | EmptyString => split_go EmptyString s'
           | _ => cur :: split_go EmptyString s'
           end
      else split_go (cur +:+ String c EmptyString) s'
  end.
Definition split : string → list string := split_go EmptyString.

(** [' '.join(l)] *)
Definition join (sep : string) (l : list string) : string :=
  String.concat sep l.

(** [l[i]] *)
Definition index {A : Type} (l : list A) (i : nat) : result A :=
  match l !! i with Some x => Ok x | None => Raise IndexError end.

(** [if s:] on a str *)
Definition nonempty (s : string) : bool :=
  match s with EmptyString => false | _ => true end.

(** *** Values decoded from JSON, and dicts *)

#[warnings="-register-all"]
Inductive json :=
| JNull
| JBool (b : bool)
| JNum (q : Q)
| JStr (s : string)
| JArr (l : list json)
| JObj (m : gmap string json).

Abbreviation dict := (gmap string json).

Definition truthy (v : json) : bool :=
  match v with
  | JNull => false
  | JBool b => b
  | JNum q => negb (Qeq_bool q 0)
  | JStr s => nonempty s
  | JArr l => match l with [] => false | _ => true end
  | JObj m => negb (bool_decide (m = ∅))
  end.

(** [a or b] *)
Definition or_ (a b : json) : json := if truthy a then a else b.

(** [v.get(k, default)]; only a dict has [get]. *)
Definition get_default (v : json) (k : string) (d : json) : result json :=
  match v with
  | JObj m => Ok (default d (m !! k))
  | _ => Raise AttributeError
  end.

(** [v.get(k)] *)
Definition get (v : json) (k : string) : result json :=
  get_default v k JNull.

(** [int(q)]: truncation towards zero. *)
Definition int (q : Q) : Z := Z.quot (Qnum q) (Z.pos (Qden q)).

(** What a request gives back: it raises, or a response arrives with a
    status code and a body. *)
Inductive reply (A : Type) :=
| Fails (e : exn)
| Response (status : Z) (body : A).
Arguments Fails {A} e.
Arguments Response {A} status body.

End Py.
Import Py.

(** [m[k]] on a dict *)
Definition getitem {A : Type} (m : gmap string A) (k : string) : result A :=
  match m !! k with Some x => Ok x | None => Raise KeyError end.

Abbreviation bytes := (list Byte.byte).

(** The files on disk: path to content. *)
Abbreviation files := (gmap string bytes).

(** ** src/suno_api_client.py *)

Module suno_api_client.

(** [datetime.date], as its ordinal. *)
Abbreviation date := Z.

(** [self.daily_usage] *)
Record usage := {
  generations : Z;
  cost_estimate : Q;
  last_reset : date
}.

(** The attributes of a [SunoAPIClient] that its methods read or write;
    [daily_budget] is [float(os.getenv('DAILY_BUDGET_USD', '0.60'))]. *)
Record SunoAPIClient := {
  daily_usage : usage;
  daily_budget : Q;
  current_model : string
}.

Definition cost_per_generation : Q := 1 # 100.

Definition city_pop_templates : gmap string (list string) :=
  list_to_map [
    ("chill",
      ["Relaxing city pop with smooth bass and dreamy synths, perfect for studying";
       "Mellow lo-fi city pop with gentle guitar and soft vocals, nostalgic vibes";
       "Chill city pop instrumental with warm piano and ambient textures"]);
    ("energetic",
      ["Upbeat city pop with funky bass and bright synths, retro energy";
       "Energetic city pop with driving drums and catchy melodies, 80s inspired";
       "Vibrant city pop with electric guitar and danceable rhythm"]);
    ("romantic",
      ["Romantic city pop with smooth saxophone and gentle vocals, sunset vibes";
       "Dreamy city pop ballad with soft synths and heartfelt melody";
       "Intimate city pop with warm vocals and tender instrumental"]);
    ("melancholic",
      ["Melancholic city pop with minor chords and reflective mood, rainy night";
       "Bittersweet city pop with emotional vocals and wistful melody";
       "Nostalgic city pop with gentle melancholy and urban atmosphere"]);
    ("study",
      ["Focus-friendly city pop instrumental, minimal vocals, concentration vibes";
       "Study session city pop with repetitive, non-distracting melody";
       "Ambient city pop perfect for background work, gentle and flowing"])
  ].

(** The client as [__init__] leaves it: the balanced model, an empty
    counter dated today. *)
Definition __init__ (budget : Q) (today : date) : SunoAPIClient :=
  {| daily_usage := {| generations := 0; cost_estimate := 0; last_reset := today |};
     daily_budget := budget;
     current_model := "v3_5" |}.

Definition set_daily_usage (u : usage) (self : SunoAPIClient) : SunoAPIClient :=
  {| daily_usage := u;
     daily_budget := daily_budget self;
     current_model := current_model self |}.

(** [today] is [datetime.now().date()]. *)
Definition _reset_daily_usage_if_needed (today : date) (self : SunoAPIClient)
  : SunoAPIClient :=
  if bool_decide (last_reset (daily_usage self) ≠ today)
  then set_daily_usage
         {| generations := 0; cost_estimate := 0; last_reset := today |} self
  else self.

(** [x < y] on amounts *)
Definition Qltb (x y : Q) : bool := negb (Qle_bool y x).

Definition _check_budget (today : date) (self : SunoAPIClient)
  : SunoAPIClient * bool :=
  let self := _reset_daily_usage_if_needed today self in
  (self, Qltb (cost_estimate (daily_usage self)) (daily_budget self)).

Definition _track_usage (self : SunoAPIClient) : SunoAPIClient :=
  let u := daily_usage self in
  set_daily_usage
    {| generations := generations u + 1;
       cost_estimate := (cost_estimate u + cost_per_generation)%Q;
       last_reset := last_reset u |} self.

(** [hour] is [datetime.now().hour]. *)
Definition _enhance_city_pop_prompt (base_prompt mood : string) (hour : Z)
  : result string :=
  mood_template ←
    (if bool_decide (is_Some (city_pop_templates !! mood))
     then templates ← getitem city_pop_templates mood; index templates 0
     else templates ← getitem city_pop_templates "chill"; index templates 0);
  let enhanced :=
    if nonempty (strip base_prompt)
    then mood_template +:+ ", " +:+ base_prompt
    else mood_template in
  let enhanced :=
    enhanced +:+ ", city pop genre, retro aesthetic, high quality production" in
  mret (enhanced +:+
    (if (22 <=? hour) || (hour <? 6) then ", late night vibes, intimate atmosphere"
     else if (6 <=? hour) && (hour <? 12) then ", morning energy, fresh start feeling"
     else if (12 <=? hour) && (hour <? 18) then ", afternoon warmth, steady rhythm"
     else ", evening glow, winding down")).

(** The body of the POST to [/generate]. *)
Record payload := {
  p_prompt : string;
  p_model_version : string;
  p_make_instrumental : bool;
  p_wait_audio : bool;
  p_duration : option json;
  p_style : option json
}.

(** What one call of [generate_music] reads from the outside world. *)
Record world := {
  today : date;                                (* at the budget check *)
  hour : Z;                                    (* in the prompt *)
  post_generate : payload → reply (result json);
                                (* the response and its [json()] *)
  strftime : string;                           (* "%Y%m%d_%H%M%S" *)
  makedirs : result unit;                      (* os.makedirs('music') *)
  http_get : string → reply (list (result bytes));
                                (* the response and its chunks, each read
                                   and written, or raising *)
  open_wb : string → result unit;              (* open(filepath, 'wb') *)
  isoformat : string                           (* datetime.now().isoformat() *)
}.

(** [f.write(chunk)] for each chunk in turn; [false] when one raises. *)
Fixpoint write_chunks (filepath : string) (chunks : list (result bytes))
  (fs : files) : files * bool :=
  match chunks with
  | [] => (fs, true)
  | Ok chunk :: rest =>
      write_chunks filepath rest
        (<[filepath := (default [] (fs !! filepath) ++ chunk)%list]> fs)
  | Raise _ :: _ => (fs, false)
  end.

Definition _download_audio (w : world) (fs : files) (audio_url : json)
  : files * option string :=
  let filename := "cityPop_" +:+ strftime w +:+ ".mp3" in
  let filepath := "music/" +:+ filename in
  match makedirs w, audio_url with
  | Ok _, JStr url =>
      match http_get w url with
      | Response status chunks =>
          if status =? 200 then
            match open_wb w filepath with
            | Ok _ =>
                let '(fs, written) :=
                  write_chunks filepath chunks (<[filepath := []]> fs) in
                (fs, if written then Some filepath else None)
            | Raise _ => (fs, None)
            end
          else (fs, None)
      | Fails _ => (fs, None)
      end
  | _, _ => (fs, None)   (* makedirs raises, or the URL is not a str *)
  end.

(** The dict [generate_music] hands back. *)
Record track := {
  filename : string;
  title : json;
  prompt : string;
  mood : string;
  duration : json;
  model_version : string;
  created_at : string;
  suno_id : json;
  metadata : dict;
  genre : string;
  tags : json;
  lyrics : json
}.

Definition _process_generation_result (self : SunoAPIClient) (w : world)
  (fs : files) (result : json) (prompt mood : string) (metadata : option dict)
  : files * option track :=
  let audio_url :=
    a ← get result "audio_url";
    if truthy a then mret a else
    b ← get result "audio";
    if truthy b then mret b else get result "url" in
  match audio_url with
  | Raise _ => (fs, None)
  | Ok audio_url =>
      if negb (truthy audio_url) then (fs, None) else
      let '(fs, audio_filename) := _download_audio w fs audio_url in
      match audio_filename with
      | Some audio_filename =>
          if nonempty audio_filename then
            (fs, except_None (
               title ← get_default result "title"
                         (JStr ("City Pop " +:+ Py.title mood +:+ " Track"));
               duration ← get_default result "duration" (JNum (180 # 1));
               suno_id ← get result "id";
               tags ← get_default result "tags" (JArr []);
               lyrics ← get_default result "lyric" (JStr EmptyString);
               mret (Some
                 {| filename := audio_filename;
                    title := title;
                    prompt := prompt;
                    mood := mood;
                    duration := duration;
                    model_version := current_model self;
                    created_at := isoformat w;
                    suno_id := suno_id;
                    metadata :=
                      match metadata with
                      | Some m => if bool_decide (m = ∅) then ∅ else m
                      | None => ∅
                      end;
                    genre := "city_pop_anime";
                    tags := tags;
                    lyrics := lyrics |})))
          else (fs, None)
      | None => (fs, None)
      end
  end.

Definition generate_music (w : world) (self : SunoAPIClient) (fs : files)
  (prompt mood : string) (metadata : option dict)
  : SunoAPIClient * files * option track :=
  let '(self, within_budget) := _check_budget (today w) self in
  if negb within_budget then (self, fs, None) else
  match _enhance_city_pop_prompt prompt mood (hour w) with
  | Raise _ => (self, fs, None)
  | Ok enhanced_prompt =>
      let with_metadata (k : string) : option json :=
        match metadata with
        | Some m => if bool_decide (m = ∅) then None else m !! k
        | None => None
        end in
      let payload :=
        {| p_prompt := enhanced_prompt;
           p_model_version := current_model self;
           p_make_instrumental := false;
           p_wait_audio := true;
           p_duration := with_metadata "duration";
           p_style := with_metadata "style" |} in
      match post_generate w payload with
      | Response status body =>
          if status =? 200 then
            match body with
            | Ok result =>
                let self := _track_usage self in
                let '(fs, r) :=
                  _process_generation_result self w fs result
                    enhanced_prompt mood metadata in
                (self, fs, r)
            | Raise _ => (self, fs, None)
            end
          else (self, fs, None)
      | Fails _ => (self, fs, None)
      end
  end.

(** The dict of [get_usage_stats]. *)
Record usage_stats := {
  daily_generations : Z;
  daily_cost : Q;
  budget_remaining : Q;
  generations_remaining : Z;
  stats_current_model : string
}.

Definition get_usage_stats (today : date) (self : SunoAPIClient)
  : SunoAPIClient * usage_stats :=
  let self := _reset_daily_usage_if_needed today self in
  let budget_remaining :=
    (daily_budget self - cost_estimate (daily_usage self))%Q in
  let generations_remaining := int (budget_remaining / cost_per_generation) in
  (self,
   {| daily_generations := generations (daily_usage self);
      daily_cost := cost_estimate (daily_usage self);
      budget_remaining := budget_remaining;
      generations_remaining := Z.max 0 generations_remaining;
      stats_current_model := current_model self |}).


(** The music generation loop of main.py calls [generate_music] once per
    request, one call after the other; [run] is the client and the disk
    after such a sequence of calls. *)
Record request := {
  r_world : world;
  r_prompt : string;
  r_mood : string;
  r_metadata : option dict
}.


End suno_api_client.

(** ** src/main.py *)

Module main.

(** A chat message: a dict whose keys 'text' and 'author' may be missing. *)
Record message := {
  text : option string;
  author : option string
}.

(** What the prompt generator returns, as the call that made it. *)
Inductive prompt :=
| create_from_user_input (prompt_text author : string)
| create_mood_prompt (mood author : string).

(** The calls on the queue manager. *)
Inductive call :=
| add_user_request (prompt : prompt) (author : string)
| process_vote (vote author : string).

(** The calls [_process_chat_message] makes on the queue manager, in
    order, or the exception it raises. *)
Definition _process_chat_message (message : message) : result (list call) :=
  let text := strip (default EmptyString (text message)) in
  let author := default "Unknown" (author message) in
  if startswith "!" text then
    let command := split (lower (tail text)) in
    verb ← index command 0;
    if bool_decide (verb = "generate") && bool_decide (1 < length command)%nat then
      let prompt_text := join " " (drop 1 command) in
      let prompt := create_from_user_input prompt_text author in
      mret [add_user_request prompt author]
    else
    verb ← index command 0;
    if bool_decide (verb = "mood") && bool_decide (1 < length command)%nat then
      let mood := join " " (drop 1 command) in
      let prompt := create_mood_prompt mood author in
      mret [add_user_request prompt author]
    else
    verb ← index command 0;
    if bool_decide (verb = "vote") && bool_decide (1 < length command)%nat then
      token ← index command 1;
      let vote := upper token in
      mret [process_vote vote author]
    else mret []
  else mret [].

(** [_chat_monitoring_loop] handles a batch of messages inside one [try]:
    the first message that raises ends the batch. *)
Fixpoint process_batch (messages : list message) : list call * option exn :=
  match messages with
  | [] => ([], None)
  | m :: rest =>
      match _process_chat_message m with
      | Ok calls =>
          let '(more, e) := process_batch rest in ((calls ++ more)%list, e)
      | Raise e => ([], Some e)
      end
  end.

(** *** The status loop

    The queue manager and the playback controller are state the loop does
    not own: [shared] is that state, and each of the three getters the
    loop calls is given as what it returns and the state it leaves. *)
Section status.

Variable shared : Type.
Variable get_queue_size : shared → result Z * shared.
Variable get_pending_requests : shared → result Z * shared.
Variable get_stream_status : shared → result string * shared.

(** The dict [status] *)
Record status := {
  queue_size : Z;
  generation_requests : Z;
  stream_status : string;
  uptime : string
}.

(** What an iteration does that can be seen from outside. *)
Inductive event :=
| log_info (s : status)
| log_error (e : exn)
| sleep (seconds : Z).

(** One iteration of [while self.running], as [now] is
    [datetime.now().isoformat()]. *)
Definition status_iteration (now : string) (s : shared) : shared * list event :=
  let '(r, s) := get_queue_size s in
  match r with
  | Raise e => (s, [log_error e; sleep 60])
  | Ok queue_size =>
      let '(r, s) := get_pending_requests s in
      match r with
      | Raise e => (s, [log_error e; sleep 60])
      | Ok generation_requests =>
          let '(r, s) := get_stream_status s in
          match r with
          | Raise e => (s, [log_error e; sleep 60])
          | Ok stream_status =>
              (s, [log_info {| queue_size := queue_size;
                               generation_requests := generation_requests;
                               stream_status := stream_status;
                               uptime := now |};
                   sleep 60])
          end
      end
  end.

(** [_status_monitoring_loop]: each element of [ticks] is one test of
    [self.running] with the clock reading of that iteration; the loop
    ends at the first test that finds the flag down. *)
Fixpoint _status_monitoring_loop (ticks : list (bool * string)) (s : shared)
  : shared * list event :=
  match ticks with
  | [] => (s, [])
  | (running, now) :: rest =>
      if running then
        let '(s, evs) := status_iteration now s in
        let '(s, more) := _status_monitoring_loop rest s in
        (s, (evs ++ more)%list)
      else (s, [])
  end.

End status.

End main.

(** ** Waiting on a simulated clock

    Both pollers have the shape
    [start_time = time.time(); while time.time() - start_time < max_wait: ...]
    with a body that returns or sleeps.  The clock is simulated: [now] is
    what [time.time()] reads, [asyncio.sleep(d)] moves it by [d], and the
    backend answers a request without moving it. *)

Module clock.

Inductive step (A : Type) :=
| Return (r : option A)
| Sleep (seconds : Z).
Arguments Return {A} r.
Arguments Sleep {A} seconds.

(** [body i] is the [i]-th pass through the loop body; the result is what
    the function returns and the clock reading at that moment, [None]
    when [fuel] passes were not enough to leave the loop. *)
Fixpoint while_waiting {A : Type} (fuel : nat) (body : nat → step A)
  (i : nat) (start_time max_wait now : Z) : option (option A * Z) :=
  match fuel with
  | O => None
  | S fuel =>
      if now - start_time <? max_wait then
        match body i with
        | Return r => Some (r, now)
        | Sleep seconds =>
            while_waiting fuel body (S i) start_time max_wait (now + seconds)
        end
      else Some (None, now)
  end.

End clock.
Import clock.

(** ** src/background_generator.py *)

Module background_generator.

Definition mood_prompts : gmap string (list string) :=
  list_to_map [
    ("chill",
      ["flowing abstract waves in soft pastels, gentle movement";
       "minimalist geometric shapes floating peacefully";
       "soft cloud formations drifting slowly across gradient sky"]);
    ("energetic",
      ["dynamic particle systems with vibrant colors";
       "fast-moving geometric patterns in bright neon";
       "pulsing light effects with rhythmic energy"]);
    ("ambient",
      ["ethereal mist floating in space, very slow movement";
       "subtle color gradients slowly shifting and blending";
       "zen-like water ripples in monochrome"]);
    ("jazz",
      ["smooth smoke swirls with warm golden tones";
       "vintage vinyl record spinning with abstract elements";
       "art deco patterns flowing with musical rhythm"]);
    ("electronic",
      ["digital grid patterns with neon accents";
       "cyberpunk-inspired geometric animations";
       "holographic interfaces with futuristic elements"]);
    ("nature",
      ["peaceful forest with gentle leaf movement";
       "calm ocean waves under sunset sky";
       "flowing river through misty mountains"]);
    ("study",
      ["library atmosphere with floating books and papers";
       "desk setup with gentle lighting and coffee steam";
       "cozy room with soft lamp glow and plants"]);
    ("rain",
      ["gentle raindrops on window with city lights";
       "peaceful rainfall in forest with soft lighting";
       "water droplets creating ripples on calm surface"])
  ].

Definition time_themes : gmap string string :=
  list_to_map [
    ("morning", "sunrise colors, warm golden light, fresh beginnings");
    ("afternoon", "bright natural lighting, clear skies, vibrant energy");
    ("evening", "sunset hues, warm orange and pink tones, winding down");
    ("night", "dark blues and purples, starry effects, peaceful atmosphere");
    ("late_night", "deep darkness with subtle neon, midnight vibes")
  ].

Definition seasonal_themes : gmap string string :=
  list_to_map [
    ("spring", "fresh green colors, blooming flowers, renewal energy");
    ("summer", "bright warm colors, sunny atmosphere, vacation vibes");
    ("autumn", "orange and red leaves, cozy atmosphere, harvest colors");
    ("winter", "cool blues and whites, snow effects, minimal warmth")
  ].

(** [self.video_settings]: the two entries the prompt quotes. *)
Definition video_duration : Z := 30.
Definition video_resolution : string := "1920x1080".

(** [str(n)] *)
Definition str (n : Z) : string := NilZero.string_of_int (Z.to_int n).

(** [current_hour] is [datetime.now().hour], [month] is
    [datetime.now().month]; [metadata] is not read. *)
Definition _enhance_prompt (base_prompt mood : string) (metadata : option dict)
  (current_hour month : Z) : result string :=
  let enhanced := base_prompt in
  enhanced ←
    (if bool_decide (is_Some (mood_prompts !! mood))
     then options ← getitem mood_prompts mood;
          mood_element ← index options 0;
          mret (enhanced +:+ ", " +:+ mood_element)
     else mret enhanced);
  theme ← getitem time_themes
    (if (5 <=? current_hour) && (current_hour <? 12) then "morning"
     else if (12 <=? current_hour) && (current_hour <? 17) then "afternoon"
     else if (17 <=? current_hour) && (current_hour <? 21) then "evening"
     else if (21 <=? current_hour) && (current_hour <? 24) then "night"
     else "late_night");
  let enhanced := enhanced +:+ ", " +:+ theme in
  season ← getitem seasonal_themes
    (if bool_decide (month ∈ [3; 4; 5]) then "spring"
     else if bool_decide (month ∈ [6; 7; 8]) then "summer"
     else if bool_decide (month ∈ [9; 10; 11]) then "autumn"
     else "winter");
  let enhanced := enhanced +:+ ", " +:+ season in
  mret (enhanced +:+
    ", seamless loop animation, " +:+ str video_duration +:+ " seconds, " +:+
    "smooth transitions, abstract style suitable for background, " +:+
    "no text or logos, continuous motion, " +:+ video_resolution +:+
    " resolution").

(** [create_mood_background] ends in [generate_background(prompt, mood)]:
    the callee is an argument, the result is whatever it returns. *)
Definition create_mood_background {R : Type}
  (generate_background : string → string → R)
  (mood : string) (user_request : option string) : result R :=
  base_prompt ←
    (if bool_decide (is_Some (mood_prompts !! mood))
     then base_prompts ← getitem mood_prompts mood; index base_prompts 0
     else mret "abstract flowing patterns with gentle movement");
  let prompt :=
    match user_request with
    | Some user_request =>
        if nonempty user_request
        then base_prompt +:+ ", inspired by: " +:+ user_request
        else base_prompt
    | None => base_prompt
    end in
  mret (generate_background prompt mood).

(** One pass through the loop body of [_wait_for_generation]: the reply
    to [requests.get] on the job, with what [response.json()] gives. *)
Definition check_job (r : reply (result json)) : step json :=
  match r with
  | Response status_code body =>
      if status_code =? 200 then
        match body with
        | Ok result =>
            match get_default result "status" (JStr "unknown") with
            | Ok (JStr status) =>
                if bool_decide (status = "completed") then Return (Some result)
                else if bool_decide (status = "failed") then Return None
                else Sleep 10
            | Ok _ => Sleep 10
            | Raise _ => Sleep 10
            end
        | Raise _ => Sleep 10
        end
      else Sleep 10
  | Fails _ => Sleep 10
  end.

(** [backend job_id i] is the reply to the [i]-th status request on the
    job; [now] is the clock when the function is entered. *)
Definition _wait_for_generation (backend : string → nat → reply (result json))
  (job_id : string) (max_wait : Z) (now : Z) : option (option json * Z) :=
  let start_time := now in
  while_waiting (S (Z.to_nat max_wait)) (λ i, check_job (backend job_id i))
    0 start_time max_wait now.

End background_generator.

(** ** src/thunder_image_client.py *)

Module thunder_image_client.

(** An entry of [images]: [image_info["filename"]] raises when the key is
    missing; the other two keys have defaults. *)
Record image_info := {
  filename : result string;
  subfolder : string;
  type_ : string
}.

(** The ComfyUI instance as the [i]-th pass through the loop sees it. *)
Record comfyui := {
  (** GET /queue: the status and, from [json()], [item[1]] of each entry
      of [queue_remaining]. *)
  queue : nat → reply (result (list (result string)));
  (** GET /history: the status and, from [json()], the outputs of the
      entry of the prompt when it has one, as the [images] of each node
      that has some. *)
  history : string → nat → reply (result (option (list (option (list image_info)))));
  (** GET /view with filename, subfolder and type: the status and
      [read()]. *)
  view : nat → string → string → string → reply (result bytes)
}.

(** [any(item[1] == prompt_id for item in queue_remaining)] *)
Fixpoint any_is (prompt_id : string) (queue_remaining : list (result string))
  : result bool :=
  match queue_remaining with
  | [] => Ok false
  | Ok id :: rest =>
      if bool_decide (id = prompt_id) then Ok true else any_is prompt_id rest
  | Raise e :: _ => Raise e
  end.

(** [for node_outputs in outputs.values(): ...]: the image data the
    loop returns, or None when it runs to its end. *)
Fixpoint find_image (c : comfyui) (i : nat)
  (outputs : list (option (list image_info))) : result (option bytes) :=
  match outputs with
  | [] => Ok None
  | Some (info :: _) :: rest =>
      match filename info with
      | Ok name =>
          match view c i name (subfolder info) (type_ info) with
          | Response status body =>
              if status =? 200 then data ← body; mret (Some data)
              else find_image c i rest
          | Fails e => Raise e
          end
      | Raise e => Raise e
      end
  | _ :: rest => find_image c i rest
  end.

(** The [try] block of the loop body up to its sleep: the image data it
    returns, None when it goes on to the sleep, or what it raises. *)
Definition look_for_image (c : comfyui) (prompt_id : string) (i : nat)
  : result (option bytes) :=
  match queue c i with
  | Response status body =>
      if status =? 200 then
        queue_remaining ← body;
        queued ← any_is prompt_id queue_remaining;
        if negb queued then
          match history c prompt_id i with
          | Response hist_status hist_body =>
              if hist_status =? 200 then
                entry ← hist_body;
                match entry with
                | Some outputs => find_image c i outputs
                | None => mret None
                end
              else mret None
          | Fails e => Raise e
          end
        else mret None
      else mret None
  | Fails e => Raise e
  end.

(** One pass through the loop body of [_wait_for_completion]. *)
Definition check_queue (c : comfyui) (prompt_id : string) (i : nat) : step bytes :=
  match look_for_image c prompt_id i with
  | Ok (Some data) => Return (Some data)
  | Ok None => Sleep 2       (* await asyncio.sleep(2) *)
  | Raise _ => Sleep 5       (* except Exception: await asyncio.sleep(5) *)
  end.

Definition _wait_for_completion (c : comfyui) (prompt_id : string)
  (max_wait : Z) (now : Z) : option (option bytes * Z) :=
  let start_time := now in
  while_waiting (S (Z.to_nat max_wait)) (check_queue c prompt_id)
    0 start_time max_wait now.

End thunder_image_client.

(** ** Simulated backends

    The three behaviours of a video job: never done, completed at the
    [n]-th status request, failed at the [n]-th. *)

Definition always_pending : string → nat → reply (result json) :=
  λ _ _, Response 200 (Ok (JObj {["status" := JStr "processing"]})).

Definition eventually (status : string) (n : nat)
  : string → nat → reply (result json) :=
  λ _ i,
    Response 200 (Ok (JObj {["status" :=
      JStr (if bool_decide (i < n)%nat then "processing" else status)]})).

(** The same for an image job: in the queue for ever; out of the queue
    and in the history, with one image, from the [n]-th pass on; out of
    the queue and never in the history. *)
Definition image_pending (prompt_id : string) : thunder_image_client.comfyui :=
  {| thunder_image_client.queue := λ _, Response 200 (Ok [Ok prompt_id]);
     thunder_image_client.history := λ _ _, Response 200 (Ok None);
     thunder_image_client.view := λ _ _ _ _, Response 404 (Ok []) |}.

Definition image_done (prompt_id : string) (n : nat) (data : bytes)
  : thunder_image_client.comfyui :=
  {| thunder_image_client.queue := λ i,
       Response 200 (Ok (if bool_decide (i < n)%nat then [Ok prompt_id] else []));
     thunder_image_client.history := λ _ _,
       Response 200 (Ok (Some [Some [
         {| thunder_image_client.filename := Ok "anime_album_art_00001_.png";
            thunder_image_client.subfolder := EmptyString;
            thunder_image_client.type_ := "output" |}]]));
     thunder_image_client.view := λ _ _ _ _, Response 200 (Ok data) |}.

Definition image_lost : thunder_image_client.comfyui :=
  {| thunder_image_client.queue := λ _, Response 200 (Ok []);
     thunder_image_client.history := λ _ _, Response 200 (Ok None);
     thunder_image_client.view := λ _ _ _ _, Response 404 (Ok []) |}.

(** ** Sample worlds

    A backend that answers every POST with 200 and [body], on a disk that
    works, the asset server answering through [get]. *)

Definition sample_world (body : json)
  (get : string → reply (list (result bytes))) : suno_api_client.world :=
  {| suno_api_client.today := 739194;
     suno_api_client.hour := 14;
     suno_api_client.post_generate := λ _, Response 200 (Ok body);
     suno_api_client.strftime := "20241104_141500";
     suno_api_client.makedirs := Ok ();
     suno_api_client.http_get := get;
     suno_api_client.open_wb := λ _, Ok ();
     suno_api_client.isoformat := "2024-11-04T14:15:00" |}.

(** A completed generation whose audio is at [url]. *)
Definition completed (url : string) : json :=
  JObj (<["audio_url" := JStr url]> (<["id" := JStr "a1"]> ∅)).

(** Asset servers: one that sends two chunks, one that has no file. *)
Definition serves : string → reply (list (result bytes)) :=
  λ _, Response 200 [Ok [Byte.x49; Byte.x44]; Ok [Byte.x33]].

(** ** The other calls on the music client *)

Module suno_calls.

Import suno_api_client.

(** [self.models] *)
Definition models : gmap string string :=
  list_to_map [("balanced", "v3_5"); ("high_quality", "v4"); ("advanced", "v4_5")].

Definition set_current_model (model : string) (self : SunoAPIClient)
  : SunoAPIClient :=
  {| daily_usage := daily_usage self;
     daily_budget := daily_budget self;
     current_model := model |}.

Definition set_model_quality (quality : string) (self : SunoAPIClient)
  : SunoAPIClient :=
  match models !! quality with
  | Some model => set_current_model model self
  | None => self
  end.

(** The body of the POST to [/generate/extend]. *)
Record extend_payload := {
  e_audio_url : string;
  e_prompt : string;
  e_model_version : string
}.

(** [extend_music] reads the world as [generate_music] does, with its own
    POST. *)
Record extend_world := {
  e_world : world;
  post_extend : extend_payload → reply (result json)
}.

Definition extend_music (w : extend_world) (self : SunoAPIClient) (fs : files)
  (existing_track extension_prompt : string)
  : SunoAPIClient * files * option track :=
  let '(self, within_budget) := _check_budget (today (e_world w)) self in
  if negb within_budget then (self, fs, None) else
  let payload :=
    {| e_audio_url := existing_track;
       e_prompt := extension_prompt;
       e_model_version := current_model self |} in
  match post_extend w payload with
  | Response status body =>
      if status =? 200 then
        match body with
        | Ok result =>
            let self := _track_usage self in
            let '(fs, r) :=
              _process_generation_result self (e_world w) fs result
                extension_prompt "extended"
                (Some {["type" := JStr "extension"]}) in
            (self, fs, r)
        | Raise _ => (self, fs, None)
        end
      else (self, fs, None)
  | Fails _ => (self, fs, None)
  end.

(** [generate_batch]: each prompt comes with the date its budget check
    reads and the world its [generate_music] reads; the two-second sleep
    between prompts only moves the clock those readings come from. *)
Fixpoint generate_batch (prompts : list (date * world * string)) (mood : string)
  (self : SunoAPIClient) (fs : files)
  : SunoAPIClient * files * list track :=
  match prompts with
  | [] => (self, fs, [])
  | (today, w, prompt) :: rest =>
      let '(self, within_budget) := _check_budget today self in
      if negb within_budget then (self, fs, []) else
      let '(self, fs, result) := generate_music w self fs prompt mood None in
      let '(self, fs, results) := generate_batch rest mood self fs in
      (self, fs,
       match result with
       | Some t => t :: results
       | None => results
       end)
  end.

(** The one path a download writes to. *)
Definition audio_path (w : world) : string :=
  "music/" +:+ ("cityPop_" +:+ strftime w +:+ ".mp3").

(** A call on the client from outside, and a sequence of them made one
    after the other. *)
Inductive call :=
| Generate (w : world) (prompt mood : string) (metadata : option dict)
| Extend (w : extend_world) (existing_track extension_prompt : string)
| Batch (prompts : list (date * world * string)) (mood : string)
| Stats (today : date)
| SetQuality (quality : string).

Definition make (c : call) (self : SunoAPIClient) (fs : files)
  : SunoAPIClient * files :=
  match c with
  | Generate w prompt mood metadata =>
      (generate_music w self fs prompt mood metadata).1
  | Extend w existing_track extension_prompt =>
      (extend_music w self fs existing_track extension_prompt).1
  | Batch prompts mood => (generate_batch prompts mood self fs).1
  | Stats today => ((get_usage_stats today self).1, fs)
  | SetQuality quality => (set_model_quality quality self, fs)
  end.

Fixpoint run_calls (calls : list call) (self : SunoAPIClient) (fs : files)
  : SunoAPIClient * files :=
  match calls with
  | [] => (self, fs)
  | c :: rest => let '(self, fs) := make c self fs in run_calls rest self fs
  end.


End suno_calls.

(** ** Words

    A str without whitespace, and the calls a message makes when it makes
    some. *)



(** ** The rest of the image client *)

Module thunder_generate.

Import thunder_image_client.

(** A dict of LoRA weights, in the order of its keys. *)
Abbreviation weights := (list (string * Q)).

(** [d[k] = v]: in place when the key is there, at the end when not. *)
Fixpoint assign (k : string) (v : Q) (d : weights) : weights :=
  match d with
  | [] => [(k, v)]
  | (k', v') :: rest =>
      if bool_decide (k' = k) then (k, v) :: rest
      else (k', v') :: assign k v rest
  end.

(** [d.update(u)] *)
Definition update (d u : weights) : weights :=
  fold_left (λ d kv, assign kv.1 kv.2 d) u d.

Record ImageGenerationRequest := {
  prompt : string;
  negative_prompt : string;
  width : Z;
  height : Z;
  steps : Z;
  cfg_scale : Q;
  sampler : string;
  clip_skip : Z;
  lora_weights : option weights
}.

Definition default_lora_weights : weights :=
  [("thin_painting_style", 2 # 10); ("pony_anime_v4", 4 # 10);
   ("genesis_quality", 4 # 10)].

Definition safety_negative : string :=
  "head out of frame, one-piece swimsuit, look away, blurry eyes, "
  +:+ "shiny, blurry face, blurry eyes, blurry, worst quality, low quality, "
  +:+ "displeasing, text, watermark, bad anatomy, text, artist name, "
  +:+ "signature, hearts, deformed hands, missing finger, shiny skin, "
  +:+ "nsfw, explicit, sexual, nude, violence, weapon, political".

(** A node of a ComfyUI workflow, and the workflow: node id to node. *)
Record node := {
  class_type : string;
  inputs : dict
}.
Abbreviation workflow := (gmap string node).

(** [[node_id, slot]]: the output [slot] of the node [node_id]. *)
Definition output_of (node_id : string) (slot : Z) : json :=
  JArr [JStr node_id; JNum (inject_Z slot)].

(** [workflow[n]["inputs"][k] = v] *)
Definition set_input (n k : string) (v : json) (wf : workflow) : workflow :=
  alter (λ nd, {| class_type := class_type nd;
                  inputs := <[k := v]> (inputs nd) |}) n wf.

(** [workflow[n]["inputs"][k]], when both keys are there. *)
Definition input_of (n k : string) (wf : workflow) : option json :=
  nd ← wf !! n; inputs nd !! k.

Definition lora_loader (lora_name : string) (weight : Q) : node :=
  {| class_type := "LoraLoader";
     inputs := list_to_map [
       ("model", output_of "1" 0);
       ("clip", output_of "1" 1);
       ("lora_name", JStr (lora_name +:+ ".safetensors"));
       ("strength_model", JNum weight);
       ("strength_clip", JNum weight)] |}.

(** One turn of [for lora_name, weight in lora_weights.items()], on the
    workflow and [node_id]. *)
Definition add_lora (acc : workflow * Z) (kv : string * Q) : workflow * Z :=
  let '(wf, node_id) := acc in
  let '(lora_name, weight) := kv in
  if suno_api_client.Qltb 0 weight then
    let id := background_generator.str node_id in
    (set_input "3" "clip" (output_of id 1)
       (set_input "2" "clip" (output_of id 1)
          (set_input "5" "model" (output_of id 0)
             (<[id := lora_loader lora_name weight]> wf))),
     node_id + 1)
  else (wf, node_id).

(** The weights the loop runs over. *)
Definition merged_weights (request : ImageGenerationRequest) : weights :=
  match lora_weights request with
  | Some (kv :: u) => update default_lora_weights (kv :: u)
  | _ => default_lora_weights
  end.

(** The weights above zero, in order: the LoRAs that get a node. *)
Definition loaded (ws : weights) : weights :=
  filter (λ kv, suno_api_client.Qltb 0 kv.2 = true) ws.

(** The seven nodes every workflow starts from; [seed] is
    [int(time.time())]. *)
Definition base_workflow (seed : Z) (request : ImageGenerationRequest)
  : workflow :=
  let full_negative :=
    negative_prompt request +:+ ", " +:+ safety_negative in
  list_to_map [
    ("1", {| class_type := "CheckpointLoaderSimple";
             inputs := {["ckpt_name" :=
               JStr "WAI-NSFW-illustrious-SDXL-v15.0.safetensors"]} |});
    ("2", {| class_type := "CLIPTextEncode";
             inputs := list_to_map [
               ("text", JStr (prompt request)); ("clip", output_of "1" 1)] |});
    ("3", {| class_type := "CLIPTextEncode";
             inputs := list_to_map [
               ("text", JStr full_negative); ("clip", output_of "1" 1)] |});
    ("4", {| class_type := "EmptyLatentImage";
             inputs := list_to_map [
               ("width", JNum (inject_Z (width request)));
               ("height", JNum (inject_Z (height request)));
               ("batch_size", JNum 1)] |});
    ("5", {| class_type := "KSampler";
             inputs := list_to_map [
               ("seed", JNum (inject_Z seed));
               ("steps", JNum (inject_Z (steps request)));
               ("cfg", JNum (cfg_scale request));
               ("sampler_name", JStr (sampler request));
               ("scheduler", JStr "normal");
               ("denoise", JNum 1);
               ("model", output_of "1" 0);
               ("positive", output_of "2" 0);
               ("negative", output_of "3" 0);
               ("latent_image", output_of "4" 0)] |});
    ("6", {| class_type := "VAEDecode";
             inputs := list_to_map [
               ("samples", output_of "5" 0); ("vae", output_of "1" 2)] |});
    ("7", {| class_type := "SaveImage";
             inputs := list_to_map [
               ("filename_prefix", JStr "anime_album_art");
               ("images", output_of "6" 0)] |})
  ].

Definition create_workflow (seed : Z) (request : ImageGenerationRequest)
  : workflow :=
  (fold_left add_lora (merged_weights request) (base_workflow seed request, 8)).1.

(** The client: [self.base_url] and whether [self.session] is set. *)
Record client := {
  base_url : option string;
  session : bool
}.

(** What one call of [generate_image] reads from the outside world. *)
Record image_world := {
  now : Z;                       (* time.time() when the poller starts *)
  seed : Z;                      (* int(time.time()) in the workflow *)
  (** POST /prompt: the status and, from [json()], the prompt id when
      there is one. *)
  post_prompt : workflow → reply (result (option string));
  comfy : comfyui
}.

(** The dict [generate_image] hands back. *)
Record image := {
  i_prompt_id : string;
  i_prompt : string;
  image_data : bytes;
  parameters : ImageGenerationRequest
}.

Definition generate_image (self : client) (w : image_world)
  (request : ImageGenerationRequest) : result (option image) :=
  match base_url self with
  | None => Raise ValueError
  | Some url =>
  if negb (nonempty url) then Raise ValueError else
  if negb (session self) then Raise ValueError else
  let workflow := create_workflow (seed w) request in
  mret (
    match post_prompt w workflow with
    | Response status body =>
        if negb (status =? 200) then None else
        match body with
        | Ok (Some prompt_id) =>
            if negb (nonempty prompt_id) then None else
            match _wait_for_completion (comfy w) prompt_id 300 (now w) with
            | Some (Some data, _) =>
                match data with
                | [] => None
                | _ => Some {| i_prompt_id := prompt_id;
                               i_prompt := prompt request;
                               image_data := data;
                               parameters := request |}
                end
            | _ => None
            end
        | _ => None
        end
    | Fails _ => None
    end)
  end.

End thunder_generate.

(** ** The rest of the background generator *)

Module background_pipeline.

Import background_generator.

(** [sub in s] on strs *)
Fixpoint contains (sub s : string) : bool :=
  String.prefix sub s ||
  match s with
  | String _ s' => contains sub s'
  | EmptyString => false
  end.

(** [s.replace(old, new)] for an [old] that is not empty: [skip] counts
    the characters of a replaced [old] still to pass over. *)
Fixpoint replace_go (old new : string) (skip : nat) (s : string) : string :=
  match s with
  | EmptyString => EmptyString
  | String c s' =>
      match skip with
      | S k => replace_go old new k s'
      | O =>
          if String.prefix old s
          then new +:+ replace_go old new (String.length old - 1) s'
          else String c (replace_go old new 0 s')
      end
  end.
Definition replace (old new s : string) : string := replace_go old new 0 s.

(** How writing a file ends: it completes, or it raises and leaves at
    the path what [left] says, nothing new when [left] is None. *)
Inductive written :=
| Completed
| Broke (left : option bytes).

(** The body of the POST to [/generate/video]. *)
Record video_payload := {
  v_prompt : string;
  v_duration : Z;
  v_width : Z;
  v_height : Z;
  v_fps : Z;
  v_format : string;
  v_style : string;
  v_loop : bool
}.

(** What one call of [generate_background] reads from the outside
    world. *)
Record video_world := {
  current_hour : Z;
  month : Z;
  post_video : video_payload → reply (result json);
                                 (* the response and its [json()] *)
  job_status : json → nat → reply (result json);
                                 (* the [i]-th GET on the job of that id *)
  now : Z;                       (* time.time() when the poller starts *)
  strftime : string;             (* "%Y%m%d_%H%M%S" *)
  get_video : string → reply bytes;
                                 (* the response and its content *)
  save : string → bytes → written;
                                 (* open(filepath, 'wb') and f.write *)
  copy2 : string → string → written;
                                 (* shutil.copy2 between two paths *)
  isoformat : string
}.

(** ['job_id' in result], which raises on what is no container. *)
Definition has_job_id (result : json) : Py.result bool :=
  match result with
  | JObj m => Ok (bool_decide (is_Some (m !! "job_id")))
  | JArr l =>
      Ok (existsb (λ v, match v with
                        | JStr s => bool_decide (s = "job_id")
                        | _ => false
                        end) l)
  | JStr s => Ok (contains "job_id" s)
  | _ => Raise TypeError
  end.

(** [result['job_id']]: a dict gives the value of the key, a list or a
    str raises on the str index. *)
Definition job_id_of (result : json) : Py.result json :=
  match result with
  | JObj m => match m !! "job_id" with Some v => Ok v | None => Raise KeyError end
  | _ => Raise TypeError
  end.

Definition _call_firefly_api (w : video_world) (prompt : string) : option json :=
  let payload :=
    {| v_prompt := prompt;
       v_duration := video_duration;
       v_width := 1920;
       v_height := 1080;
       v_fps := 30;
       v_format := "mp4";
       v_style := "abstract";
       v_loop := true |} in
  match post_video w payload with
  | Response status_code body =>
      if status_code =? 200 then
        except_None (
          result ← body;
          named ← has_job_id result;
          if (named : bool) then
            job_id ← job_id_of result;
            mret (match _wait_for_generation (λ _, job_status w job_id)
                          (match job_id with JStr s => s | _ => EmptyString end)
                          300 (now w) with
                  | Some (r, _) => r
                  | None => None
                  end)
          else mret (Some result))
      else None
  | Fails _ => None
  end.

(** Where [_download_video] writes. *)
Definition video_path (w : video_world) : string :=
  "videos/backgrounds/" +:+ ("background_" +:+ strftime w +:+ ".mp4").

Definition _download_video (w : video_world) (fs : files)
  (generation_result : json) : files * option string :=
  let download_url :=
    a ← get generation_result "download_url";
    if truthy a then mret a else get generation_result "url" in
  match download_url with
  | Ok (JStr url) =>
      if negb (nonempty url) then (fs, None) else
      let filename := "background_" +:+ strftime w +:+ ".mp4" in
      let filepath := "videos/backgrounds/" +:+ filename in
      match get_video w url with
      | Response status_code content =>
          (* response.raise_for_status() *)
          if (400 <=? status_code) && (status_code <? 600) then (fs, None) else
          match save w filepath content with
          | Completed => (<[filepath := content]> fs, Some filepath)
          | Broke (Some part) => (<[filepath := part]> fs, None)
          | Broke None => (fs, None)
          end
      | Fails _ => (fs, None)
      end
  | _ => (fs, None)     (* no URL, or one [requests.get] raises on *)
  end.

Definition _process_for_looping (w : video_world) (fs : files)
  (video_path : string) : files * string :=
  let output_path := replace ".mp4" "_loop.mp4" video_path in
  match fs !! video_path with
  | Some content =>
      if bool_decide (output_path = video_path) then (fs, video_path)
      else
        match copy2 w video_path output_path with
        | Completed => (<[output_path := content]> fs, output_path)
        | Broke (Some part) => (<[output_path := part]> fs, video_path)
        | Broke None => (fs, video_path)
        end
  | None => (fs, video_path)
  end.

(** The dict [generate_background] hands back. *)
Record background := {
  filename : string;
  prompt : string;
  mood : string;
  duration : Z;
  resolution : string;
  created_at : string;
  metadata : dict
}.

Definition generate_background (w : video_world) (fs : files)
  (prompt mood : string) (metadata : option dict)
  : files * option background :=
  match _enhance_prompt prompt mood metadata (current_hour w) (month w) with
  | Ok enhanced_prompt =>
      match _call_firefly_api w enhanced_prompt with
      | Some generation_result =>
          if truthy generation_result then
            let '(fs, video_path) := _download_video w fs generation_result in
            match video_path with
            | Some video_path =>
                let '(fs, processed_path) :=
                  _process_for_looping w fs video_path in
                (fs, Some {| filename := processed_path;
                             prompt := prompt;
                             mood := mood;
                             duration := video_duration;
                             resolution := video_resolution;
                             created_at := isoformat w;
                             metadata := default ∅ metadata |})
            | None => (fs, None)
            end
          else (fs, None)
      | None => (fs, None)
      end
  | Raise _ => (fs, None)
  end.

Definition weather_prompts : gmap string string :=
  list_to_map [
    ("rain", "gentle raindrops on glass, soft reflections, peaceful atmosphere");
    ("sunny", "warm sunlight filtering through, bright and cheerful");
    ("cloudy", "soft cloud formations, muted lighting, calm ambiance");
    ("snow", "gentle snowfall, winter wonderland, serene white landscape");
    ("storm", "dramatic clouds with distant lightning, powerful yet beautiful");
    ("clear", "clear skies with subtle gradients, peaceful and open")
  ].

Definition create_weather_background (w : video_world) (fs : files)
  (weather_condition mood : string) : Py.result (files * option background) :=
  clear ← getitem weather_prompts "clear";
  let weather_prompt := default clear (weather_prompts !! weather_condition) in
  mret (generate_background w fs weather_prompt mood
          (Some {["weather" := JStr weather_condition]})).

End background_pipeline.

(** A world for [generate_background]: the API answers every POST with
    [post] and every status request as [status] says, the video server
    sends two bytes, the download is written in full and the copy ends
    as [copy] says. *)
Definition sample_video_world (post : reply (result json))
  (status : json → nat → reply (result json))
  (copy : background_pipeline.written) : background_pipeline.video_world :=
  {| background_pipeline.current_hour := 14;
     background_pipeline.month := 11;
     background_pipeline.post_video := λ _, post;
     background_pipeline.job_status := status;
     background_pipeline.now := 1000;
     background_pipeline.strftime := "20241104_141500";
     background_pipeline.get_video := λ _, Response 200 [Byte.x00; Byte.x01];
     background_pipeline.save := λ _ _, background_pipeline.Completed;
     background_pipeline.copy2 := λ _ _, copy;
     background_pipeline.isoformat := "2024-11-04T14:15:00" |}.

(** A finished video at [url]. *)
Definition video_at (url : string) : json :=
  JObj {["download_url" := JStr url]}.

(** A job that is never done, whatever its id. *)
Definition always_pending_job : json → nat → reply (result json) :=
  λ _ i, always_pending EmptyString i.

(** * Properties *)

Import suno_api_client.

(** ** The budget gate *)

Lemma Qltb_lt (x y : Q) : Qltb x y = true ↔ (x < y)%Q.
Proof.
  unfold Qltb. rewrite negb_true_iff, <- not_true_iff_false, Qle_bool_iff.
  split; [apply Qnot_le_lt | apply Qlt_not_le].
Qed.

Lemma reset_budget today self :
  daily_budget (_reset_daily_usage_if_needed today self) = daily_budget self.
Proof. unfold _reset_daily_usage_if_needed. by case_bool_decide. Qed.

Lemma reset_last_reset today self :
  last_reset (daily_usage (_reset_daily_usage_if_needed today self)) = today.
Proof.
  unfold _reset_daily_usage_if_needed. by case_bool_decide.
Qed.

Lemma reset_same_day self :
  _reset_daily_usage_if_needed (last_reset (daily_usage self)) self = self.
Proof. unfold _reset_daily_usage_if_needed. by case_bool_decide. Qed.

Lemma reset_idem today self :
  _reset_daily_usage_if_needed today (_reset_daily_usage_if_needed today self)
  = _reset_daily_usage_if_needed today self.
Proof.
  rewrite <- (reset_last_reset today self) at 1. apply reset_same_day.
Qed.



(** ** Prompt construction never fails *)

Lemma city_pop_templates_first : ∀ mood templates,
  city_pop_templates !! mood = Some templates →
  ∃ first rest, templates = first :: rest ∧ first ≠ EmptyString.
Proof.
  intros mood templates Hm. unfold city_pop_templates in Hm. simpl in Hm.
  repeat (apply lookup_insert_Some in Hm as [[_ <-]|[_ Hm]];
          [by eexists _, _|]).
  by rewrite lookup_empty in Hm.
Qed.

Lemma enhance_city_pop_prompt_total base_prompt mood hour :
  ∃ p, _enhance_city_pop_prompt base_prompt mood hour = Ok p.
Proof.
  unfold _enhance_city_pop_prompt.
  destruct (city_pop_templates_first "chill" _ eq_refl)
    as (chill & rest & Hchill & _).
  case_bool_decide as Hin.
  - destruct Hin as [templates Hm]. unfold getitem. rewrite Hm.
    destruct (city_pop_templates_first _ _ Hm) as (first & rest' & -> & _).
    simpl. eauto.
  - simpl. eauto.
Qed.

(** What [generate_music] does to the client: nothing beyond the lazy
    reset, or the reset and one [_track_usage]. *)
Lemma generate_music_client w self fs prompt mood metadata :
  let self0 := _reset_daily_usage_if_needed (today w) self in
  let '(self', _, r) := generate_music w self fs prompt mood metadata in
  (self' = self0 ∧ r = None) ∨
  (self' = _track_usage self0 ∧
   (cost_estimate (daily_usage self0) < daily_budget self0)%Q ∧
   ∃ p result, post_generate w p = Response 200 (Ok result)).
Proof.
  unfold generate_music, _check_budget.
  set (self0 := _reset_daily_usage_if_needed (today w) self). simpl.
  destruct (Qltb _ _) eqn:Hlt; simpl; [|by left].
  apply Qltb_lt in Hlt.
  destruct (_enhance_city_pop_prompt _ _ _) as [enhanced|]; [|by left].
  match goal with |- context [post_generate w ?p] =>
    destruct (post_generate w p) as [|status body] eqn:Hpost end; [by left|].
  destruct (status =? 200) eqn:Hst; [|by left].
  apply Z.eqb_eq in Hst; subst status.
  destruct body as [result|]; [|by left].
  destruct (_process_generation_result _ _ _ _ _ _ _) as [fs' r].
  right. eauto.
Qed.





(** The day's first two generations under a budget of two cents, and the
    client after each. *)
Lemma two_cent_day (day : date) :
  let c0 := __init__ (2 # 100) day in
  let c1 := _track_usage (_check_budget day c0).1 in
  let c2 := _track_usage (_check_budget day c1).1 in
  _check_budget day c0 = (c0, true) ∧
  _check_budget day c1 = (c1, true) ∧
  _check_budget day c2 = (c2, false) ∧
  generations (daily_usage c2) = 2.
Proof.
  assert (Hsame : ∀ self, last_reset (daily_usage self) = day →
            _reset_daily_usage_if_needed day self = self).
  { intros self <-. apply reset_same_day. }
  unfold _check_budget. cbv zeta.
  rewrite (Hsame (__init__ (2 # 100) day)) by done. cbn [fst].
  rewrite (Hsame (_track_usage (__init__ (2 # 100) day))) by done. cbn [fst].
  rewrite (Hsame (_track_usage (_track_usage (__init__ (2 # 100) day)))) by done.
  done.
Qed.

(** C3. [_check_budget] first resets the counter when its date is not
    today (generations 0, cost 0, dated today) and leaves it alone
    otherwise, then answers true exactly when the cost to date is
    strictly below the daily budget.  With a budget of 0.02 and 0.01 per
    generation the first two checks of a day pass, the third fails, and a
    third [generate_music] that day returns None and records nothing,
    whatever is requested. *)
Theorem check_budget_resets_then_compares :
  (∀ today self,
     let '(self', within) := _check_budget today self in
     self' = _reset_daily_usage_if_needed today self ∧
     (last_reset (daily_usage self) ≠ today →
      daily_usage self' =
        {| generations := 0; cost_estimate := 0; last_reset := today |}) ∧
     (last_reset (daily_usage self) = today → self' = self) ∧
     daily_budget self' = daily_budget self ∧
     (within = true ↔
      (cost_estimate (daily_usage self') < daily_budget self)%Q)) ∧
  (∀ w fs prompt mood metadata,
     let day := today w in
     let c0 := __init__ (2 # 100) day in
     let c1 := _track_usage (_check_budget day c0).1 in
     let c2 := _track_usage (_check_budget day c1).1 in
     (_check_budget day c0).2 = true ∧
     (_check_budget day c1).2 = true ∧
     (_check_budget day c2).2 = false ∧
     generations (daily_usage c2) = 2 ∧
     generate_music w c2 fs prompt mood metadata = (c2, fs, None)).
Proof.
  split.
  - intros today self. unfold _check_budget. simpl.
    split; [done|]. split; [|split; [|split]].
    + intros Hne. unfold _reset_daily_usage_if_needed.
      by rewrite bool_decide_eq_true_2.
    + intros <-. apply reset_same_day.
    + apply reset_budget.
    + rewrite Qltb_lt. by rewrite reset_budget.
  - intros w fs prompt mood metadata. cbv zeta.
    pose proof (two_cent_day (today w)) as H. cbv zeta in H.
    destruct H as (H0 & H1 & H2 & Hg).
    rewrite H0 in H1, H2, Hg |- *. cbn [fst snd] in *.
    rewrite H1 in H2, Hg |- *. cbn [fst snd] in *.
    repeat split; try done.
    + by rewrite H2.
    + unfold generate_music. by rewrite H2.
Qed.

Lemma check_budget_resets_then_compares_witness :
  ∃ self' within,
    _check_budget 739000 (__init__ (60 # 100) 738999) = (self', within) ∧
    daily_usage self' =
      {| generations := 0; cost_estimate := 0; last_reset := 739000 |} ∧
    within = true.
Proof.
  pose proof (proj1 check_budget_resets_then_compares 739000
                (__init__ (60 # 100) 738999)) as H.
  destruct (_check_budget 739000 (__init__ (60 # 100) 738999))
    as [self' within].
  destruct H as (_ & Hreset & _ & _ & Hlt).
  exists self', within. split; [reflexivity|]. split.
  - apply Hreset. vm_compute. discriminate.
  - apply Hlt. rewrite (Hreset ltac:(vm_compute; discriminate)).
    vm_compute. reflexivity.
Defined.


(** The same day in binary64, the arithmetic of the source: the sums
    0.0 + 0.01 and 0.0 + 0.01 + 0.01 compare with 0.02, and leave
    0.015 - 0.02 below zero, as their rational readings do. *)
#[warnings="-inexact-float"]
Example two_cent_day_binary64 :
  (PrimFloat.ltb 0 0.02 = true ∧
   PrimFloat.ltb (0 + 0.01) 0.02 = true ∧
   PrimFloat.ltb (0 + 0.01 + 0.01) 0.02 = false ∧
   PrimFloat.ltb (0.015 - (0 + 0.01 + 0.01)) 0 = true)%float.
Proof. by vm_compute. Qed.

(** ** Recording and downloading *)

Lemma write_chunks_done filepath chunks : ∀ fs fs' content,
  fs !! filepath = Some content →
  write_chunks filepath chunks fs = (fs', true) →
  ∃ data, chunks = Ok <$> data ∧
          fs' !! filepath = Some (content ++ concat data)%list.
Proof.
  induction chunks as [|[chunk|e] rest IH]; intros fs fs' content Hfs Hw;
    simpl in Hw.
  - injection Hw as <-. exists []. by rewrite app_nil_r.
  - rewrite Hfs in Hw. simpl in Hw.
    destruct (IH _ _ (content ++ chunk)%list (lookup_insert_eq _ _ _) Hw)
      as (data & -> & Hfs').
    exists (chunk :: data). split; [done|].
    by rewrite Hfs', <- app_assoc.
  - done.
Qed.

(** A path comes back from [_download_audio] only when the asset server
    answered 200 and every chunk of the body was written to that path. *)
Lemma download_audio_Some w fs audio_url fs' filepath :
  _download_audio w fs audio_url = (fs', Some filepath) →
  filepath = "music/" +:+ ("cityPop_" +:+ strftime w +:+ ".mp3") ∧
  ∃ url data, audio_url = JStr url ∧
              http_get w url = Response 200 (Ok <$> data) ∧
              fs' !! filepath = Some (concat data).
Proof.
  unfold _download_audio. intros H.
  destruct (makedirs w); [|done].
  destruct audio_url as [| | |url| |]; try done.
  destruct (http_get w url) as [|status chunks] eqn:Hget; [done|].
  destruct (status =? 200) eqn:Hst; [|done].
  apply Z.eqb_eq in Hst; subst status.
  destruct (open_wb w _); [|done].
  destruct (write_chunks _ _ _) as [fs1 written] eqn:Hw.
  destruct written; [|done].
  injection H as <- <-. split; [done|].
  destruct (write_chunks_done _ _ _ _ [] (lookup_insert_eq _ _ _) Hw)
    as (data & -> & Hfs').
  by exists url, data.
Qed.

Lemma process_generation_result_Some self w fs result prompt mood metadata fs' t :
  _process_generation_result self w fs result prompt mood metadata
    = (fs', Some t) →
  ∃ audio_url, _download_audio w fs audio_url = (fs', Some (filename t)).
Proof.
  unfold _process_generation_result. intros H.
  match type of H with
  | match ?u with _ => _ end = _ => destruct u as [audio_url|]; [|done]
  end.
  destruct (truthy audio_url); [|done]. simpl in H.
  destruct (_download_audio w fs audio_url) as [fs1 [audio_filename|]] eqn:Hdl;
    [|done].
  destruct (nonempty audio_filename); [|done].
  injection H as <- H.
  exists audio_url. f_equal. f_equal.
  destruct result; try done. simpl in H. by injection H as <-.
Qed.






(** ** The command parser *)

Import main.

(** C4. "!generate make it jazzy" from alice asks the prompt generator
    for a prompt from the text "make it jazzy" and alice, and queues it
    for alice; "!mood chill" queues a mood prompt for the mood chill;
    "!vote A" and "!vote a" cast the same vote; "!generate" alone and a
    text without the prefix make no call at all. *)
Theorem chat_commands_parsed :
  _process_chat_message
    {| text := Some "!generate make it jazzy"; author := Some "alice" |}
  = Ok [add_user_request
          (create_from_user_input "make it jazzy" "alice") "alice"] ∧
  (∀ author : string,
     _process_chat_message {| text := Some "!mood chill"; author := Some author |}
     = Ok [add_user_request (create_mood_prompt "chill" author) author]) ∧
  (∀ author : string,
     _process_chat_message {| text := Some "!vote A"; author := Some author |}
     = Ok [process_vote "A" author] ∧
     _process_chat_message {| text := Some "!vote a"; author := Some author |}
     = _process_chat_message {| text := Some "!vote A"; author := Some author |}) ∧
  (∀ author : option string,
     _process_chat_message {| text := Some "!generate"; author := author |}
     = Ok []) ∧
  (∀ author : option string,
     _process_chat_message {| text := Some "hello"; author := author |}
     = Ok []).
Proof. repeat split; intros; reflexivity. Qed.

(** C5 fails on the text that is the prefix alone: [text[1:]] is empty,
    [split()] gives the empty list and [command[0]] raises. *)
Theorem bare_prefix_raises :
  _process_chat_message {| text := Some "!"; author := Some "alice" |}
  = Raise IndexError ∧
  _process_chat_message {| text := Some "  !  "; author := None |}
  = Raise IndexError.
Proof. split; reflexivity. Qed.

(** What the chat loop makes of it: the messages of the batch that come
    after the bare prefix are never looked at. *)
Example bare_prefix_drops_the_batch :
  process_batch
    [ {| text := Some "!"; author := Some "alice" |};
      {| text := Some "!generate make it jazzy"; author := Some "bob" |} ]
  = ([], Some IndexError).
Proof. reflexivity. Qed.

(** ** The status loop *)

(** With the playback controller out of reach, the iteration logs the
    error and nothing else: the queue figures it had already read are
    not reported. *)
Lemma unreachable_controller_drops_snapshot :
  status_iteration unit
    (λ s, (Ok 3, s)) (λ s, (Ok 1, s)) (λ s, (Raise ClientError, s))
    "2024-11-04T14:15:00" ()
  = ((), [log_error ClientError; sleep 60]).
Proof. reflexivity. Qed.

Section status_facts.

Variable shared : Type.
Variable get_queue_size : shared → result Z * shared.
Variable get_pending_requests : shared → result Z * shared.
Variable get_stream_status : shared → result string * shared.

Let iteration :=
  status_iteration shared get_queue_size get_pending_requests get_stream_status.
Let loop :=
  _status_monitoring_loop shared get_queue_size get_pending_requests
    get_stream_status.

Lemma status_iteration_events now s :
  (∃ queue_size generation_requests stream_status,
     (get_queue_size s).1 = Ok queue_size ∧
     (get_pending_requests (get_queue_size s).2).1 = Ok generation_requests ∧
     (get_stream_status (get_pending_requests (get_queue_size s).2).2).1
       = Ok stream_status ∧
     (iteration now s).2 =
       [log_info {| queue_size := queue_size;
                    generation_requests := generation_requests;
                    stream_status := stream_status;
                    uptime := now |};
        sleep 60]) ∨
  (∃ e,
     ((get_queue_size s).1 = Raise e ∨
      (get_pending_requests (get_queue_size s).2).1 = Raise e ∨
      (get_stream_status (get_pending_requests (get_queue_size s).2).2).1
        = Raise e) ∧
     (iteration now s).2 = [log_error e; sleep 60]).
Proof.
  unfold iteration, status_iteration.
  destruct (get_queue_size s) as [[q|e] s1]; simpl; [|right; eauto].
  destruct (get_pending_requests s1) as [[p|e] s2]; simpl; [|right; eauto].
  destruct (get_stream_status s2) as [[st|e] s3]; simpl; [|right; eauto 6].
  left. eauto 10.
Qed.

Lemma status_iteration_read_only now s :
  (∀ x, (get_queue_size x).2 = x) →
  (∀ x, (get_pending_requests x).2 = x) →
  (∀ x, (get_stream_status x).2 = x) →
  (iteration now s).1 = s.
Proof.
  intros Hq Hp Hs. unfold iteration, status_iteration.
  specialize (Hq s). destruct (get_queue_size s) as [[q|e] s1];
    simpl in *; subst s1; [|done].
  specialize (Hp s). destruct (get_pending_requests s) as [[p|e] s2];
    simpl in *; subst s2; [|done].
  specialize (Hs s). destruct (get_stream_status s) as [[st|e] s3];
    simpl in *; by subst s3.
Qed.

Lemma status_iteration_two_events now s : length (iteration now s).2 = 2%nat.
Proof.
  destruct (status_iteration_events now s)
    as [(? & ? & ? & _ & _ & _ & ->)|(? & _ & ->)]; done.
Qed.

Lemma status_loop_keeps_going ticks : ∀ s,
  Forall (λ tick, tick.1 = true) ticks →
  length (loop ticks s).2 = (2 * length ticks)%nat.
Proof.
  induction ticks as [|[running now] rest IH]; intros s Hrun; [done|].
  apply Forall_cons in Hrun as [Hr Hrest]. simpl in Hr; subst running.
  unfold loop in *. simpl.
  pose proof (status_iteration_two_events now s) as H2. unfold iteration in H2.
  destruct (status_iteration _ _ _ _ now s) as [s1 evs]. simpl in H2.
  specialize (IH s1 Hrest).
  destruct (_status_monitoring_loop _ _ _ _ rest s1) as [s2 more].
  simpl in *. rewrite length_app. lia.
Qed.

End status_facts.

(** C9, as the code has it. An iteration of the status loop writes
    nothing of its own: when the three getters leave the shared state
    alone, so does the iteration.  A snapshot is all or nothing: with all
    three sources answering it is logged with their three values; when
    one of them raises, the iteration logs that error and no snapshot.
    Either way the iteration ends in its sleep of 60 seconds and the loop
    goes on: as long as the running flag stays up, every pass is made. *)
Theorem status_snapshot_all_or_nothing :
  ∀ (shared : Type)
    (get_queue_size get_pending_requests : shared → result Z * shared)
    (get_stream_status : shared → result string * shared)
    (now : string) (s : shared),
    let iteration :=
      status_iteration shared get_queue_size get_pending_requests
        get_stream_status in
    let loop :=
      _status_monitoring_loop shared get_queue_size get_pending_requests
        get_stream_status in
    ((∀ x, (get_queue_size x).2 = x) →
     (∀ x, (get_pending_requests x).2 = x) →
     (∀ x, (get_stream_status x).2 = x) →
     (iteration now s).1 = s) ∧
    ((∃ queue_size generation_requests stream_status,
        (get_queue_size s).1 = Ok queue_size ∧
        (get_pending_requests (get_queue_size s).2).1 = Ok generation_requests ∧
        (get_stream_status (get_pending_requests (get_queue_size s).2).2).1
          = Ok stream_status ∧
        (iteration now s).2 =
          [log_info {| queue_size := queue_size;
                       generation_requests := generation_requests;
                       stream_status := stream_status;
                       uptime := now |};
           sleep 60]) ∨
     (∃ e,
        ((get_queue_size s).1 = Raise e ∨
         (get_pending_requests (get_queue_size s).2).1 = Raise e ∨
         (get_stream_status (get_pending_requests (get_queue_size s).2).2).1
           = Raise e) ∧
        (iteration now s).2 = [log_error e; sleep 60])) ∧
    (∀ ticks, Forall (λ tick : bool * string, tick.1 = true) ticks →
              length (loop ticks s).2 = (2 * length ticks)%nat).
Proof.
  intros. split; [|split].
  - apply status_iteration_read_only.
  - apply status_iteration_events.
  - intros ticks. apply status_loop_keeps_going.
Qed.

Lemma status_snapshot_all_or_nothing_witness :
  (status_iteration unit
     (λ s, (Ok 3, s)) (λ s, (Ok 1, s)) (λ s, (Raise ClientError, s))
     "2024-11-04T14:15:00" ()).1 = () ∧
  length (_status_monitoring_loop unit
            (λ s, (Ok 3, s)) (λ s, (Ok 1, s)) (λ s, (Raise ClientError, s))
            [(true, "14:15"); (true, "14:16"); (true, "14:17")] ()).2 = 6%nat.
Proof.
  pose proof (status_snapshot_all_or_nothing unit
                (λ s, (Ok 3, s)) (λ s, (Ok 1, s)) (λ s, (Raise ClientError, s))
                "2024-11-04T14:15:00" ()) as (Hro & _ & Hloop).
  split.
  - by apply Hro.
  - apply (Hloop [(true, "14:15"); (true, "14:16"); (true, "14:17")]).
    by repeat constructor.
Defined.

(** *** Where the parser raises

    The bare prefix is the only text on which [_process_chat_message]
    raises; on every other text it returns. *)







(** ** The pollers *)

Import background_generator thunder_image_client.

Section waiting.

Context {A : Type} (body : nat → step A).

(** The loop is left once the wait is used up, a pass returns, or the
    fuel runs out; with sleeps of at least a second, fuel above the
    seconds still to wait is never used up, and the clock at the exit is
    less than the longest sleep past the limit. *)
Lemma while_waiting_terminates (longest : Z) :
  (∀ i seconds, body i = Sleep seconds → 1 ≤ seconds ≤ longest) →
  ∀ fuel i start_time max_wait now,
    (Z.to_nat (start_time + max_wait - now) < fuel)%nat →
    now - start_time < max_wait + longest →
    ∃ r t, while_waiting fuel body i start_time max_wait now = Some (r, t) ∧
           now ≤ t ∧ t - start_time < max_wait + longest.
Proof.
  intros Hsleep. induction fuel as [|fuel IH];
    intros i start_time max_wait now Hfuel Hnow; [lia|].
  simpl. destruct (now - start_time <? max_wait) eqn:Hlt.
  - apply Z.ltb_lt in Hlt.
    destruct (body i) as [r|seconds] eqn:Hbody.
    + exists r, now. split; [done|]. split; lia.
    + apply Hsleep in Hbody.
      destruct (IH (S i) start_time max_wait (now + seconds))
        as (r & t & Hw & Ht & Hbound); [lia|lia|].
      exists r, t. split; [done|]. split; lia.
  - exists None, now. split; [done|]. split; lia.
Qed.

(** A loop none of whose passes returns is left by the test of the
    elapsed time alone. *)
Lemma while_waiting_times_out :
  (∀ i, ∃ seconds, body i = Sleep seconds) →
  ∀ fuel i start_time max_wait now r t,
    while_waiting fuel body i start_time max_wait now = Some (r, t) →
    r = None ∧ max_wait ≤ t - start_time.
Proof.
  intros Hpending. induction fuel as [|fuel IH];
    intros i start_time max_wait now r t Hw; [done|].
  simpl in Hw. destruct (now - start_time <? max_wait) eqn:Hlt.
  - destruct (Hpending i) as [seconds Hbody]. rewrite Hbody in Hw. eauto.
  - apply Z.ltb_ge in Hlt. injection Hw as <- <-. split; [done|lia].
Qed.

End waiting.

Lemma check_job_sleeps r seconds : check_job r = Sleep seconds → seconds = 10.
Proof.
  unfold check_job. intros H.
  repeat match type of H with
         | match ?x with _ => _ end = _ => destruct x
         | (if ?b then _ else _) = _ => destruct b
         end; congruence.
Qed.

Lemma check_queue_sleeps c prompt_id i seconds :
  check_queue c prompt_id i = Sleep seconds →
  (seconds = 2 ∧ look_for_image c prompt_id i = Ok None) ∨
  (seconds = 5 ∧ ∃ e, look_for_image c prompt_id i = Raise e).
Proof.
  unfold check_queue.
  destruct (look_for_image c prompt_id i) as [[data|]|e]; intros [= <-]; eauto.
Qed.

(** Whatever the ComfyUI instance does, the image poller is back within
    the wait plus the five seconds of its longest sleep. *)
Lemma wait_for_completion_terminates c prompt_id max_wait now :
  0 ≤ max_wait →
  ∃ r t, _wait_for_completion c prompt_id max_wait now = Some (r, t) ∧
         now ≤ t ∧ t - now < max_wait + 5.
Proof.
  intros Hmax. unfold _wait_for_completion.
  apply while_waiting_terminates; [|lia|lia].
  intros i seconds Hs.
  apply check_queue_sleeps in Hs as [[-> _]|[-> _]]; lia.
Qed.

(** C7. On the simulated clock, for a wait of [max_wait] seconds from
    [now]: the video poller returns, a result or None, less than
    [max_wait + 10] seconds later whatever the backend answers, and the
    image poller less than [max_wait + 2] seconds later when no request
    of a pass raises; a poller that never sees a terminal answer returns
    None, once the wait is used up. *)
Theorem pollers_return_in_time :
  ∀ max_wait now : Z,
    0 ≤ max_wait →
    (∀ backend job_id,
       ∃ r t,
         _wait_for_generation backend job_id max_wait now = Some (r, t) ∧
         now ≤ t ∧ t - now < max_wait + 10 ∧
         ((∀ i, check_job (backend job_id i) = Sleep 10) →
          r = None ∧ max_wait ≤ t - now)) ∧
    (∀ c prompt_id,
       (∀ i e, look_for_image c prompt_id i ≠ Raise e) →
       ∃ r t,
         _wait_for_completion c prompt_id max_wait now = Some (r, t) ∧
         now ≤ t ∧ t - now < max_wait + 2 ∧
         ((∀ i, look_for_image c prompt_id i = Ok None) →
          r = None ∧ max_wait ≤ t - now)).
Proof.
  intros max_wait now Hmax. split.
  - intros backend job_id. unfold _wait_for_generation.
    destruct (while_waiting_terminates (λ i, check_job (backend job_id i)) 10)
      with (fuel := S (Z.to_nat max_wait)) (i := 0%nat) (start_time := now)
           (max_wait := max_wait) (now := now)
      as (r & t & Hw & Ht & Hbound); [|lia|lia|].
    { intros i seconds Hs. apply check_job_sleeps in Hs. lia. }
    exists r, t. split; [done|]. split; [done|]. split; [done|].
    intros Hpending.
    eapply (while_waiting_times_out (λ i, check_job (backend job_id i)));
      eauto.
  - intros c prompt_id Hquiet. unfold _wait_for_completion.
    destruct (while_waiting_terminates (check_queue c prompt_id) 2)
      with (fuel := S (Z.to_nat max_wait)) (i := 0%nat) (start_time := now)
           (max_wait := max_wait) (now := now)
      as (r & t & Hw & Ht & Hbound); [|lia|lia|].
    { intros i seconds Hs.
      apply check_queue_sleeps in Hs as [[-> _]|[_ [e He]]]; [lia|].
      by apply Hquiet in He. }
    exists r, t. split; [done|]. split; [done|]. split; [done|].
    intros Hpending.
    eapply (while_waiting_times_out (check_queue c prompt_id)); [|done].
    intros i. exists 2. unfold check_queue. by rewrite Hpending.
Qed.

Lemma pollers_return_in_time_witness :
  (∃ r t,
     _wait_for_generation always_pending "job-1" 300 1000 = Some (r, t) ∧
     1000 ≤ t ∧ t - 1000 < 300 + 10 ∧
     ((∀ i, check_job (always_pending "job-1" i) = Sleep 10) →
      r = None ∧ 300 ≤ t - 1000)) ∧
  (∃ r t,
     _wait_for_completion (image_pending "p-1") "p-1" 300 1000 = Some (r, t) ∧
     1000 ≤ t ∧ t - 1000 < 300 + 2 ∧
     ((∀ i, look_for_image (image_pending "p-1") "p-1" i = Ok None) →
      r = None ∧ 300 ≤ t - 1000)).
Proof.
  destruct (pollers_return_in_time 300 1000 ltac:(lia)) as [Hvideo Himage].
  split.
  - apply Hvideo.
  - apply Himage. intros i e. by vm_compute.
Defined.

(** The three behaviours, with the default wait of 300 seconds from a
    clock at 1000: the wait used up, a result at the fourth request, a
    failure at the fourth request. *)
Example video_job_behaviours :
  _wait_for_generation always_pending "job-1" 300 1000 = Some (None, 1300) ∧
  _wait_for_generation (eventually "completed" 3) "job-1" 300 1000
  = Some (Some (JObj {["status" := JStr "completed"]}), 1030) ∧
  _wait_for_generation (eventually "failed" 3) "job-1" 300 1000
  = Some (None, 1030).
Proof. by vm_compute. Qed.

Example image_job_behaviours :
  _wait_for_completion (image_pending "p-1") "p-1" 300 1000
  = Some (None, 1300) ∧
  _wait_for_completion (image_done "p-1" 3 [Byte.x89; Byte.x50]) "p-1" 300 1000
  = Some (Some [Byte.x89; Byte.x50], 1006) ∧
  _wait_for_completion image_lost "p-1" 300 1000 = Some (None, 1300).
Proof. by vm_compute. Qed.

(** ** Moods *)

Lemma append_nonempty_r (s1 s2 : string) :
  s2 ≠ EmptyString → s1 +:+ s2 ≠ EmptyString.
Proof. destruct s1, s2; done. Qed.

Lemma mood_prompts_first : ∀ mood options,
  mood_prompts !! mood = Some options →
  ∃ first rest, options = first :: rest ∧ first ≠ EmptyString.
Proof.
  intros mood options Hm. unfold mood_prompts in Hm. simpl in Hm.
  repeat (apply lookup_insert_Some in Hm as [[_ <-]|[_ Hm]];
          [by eexists _, _|]).
  by rewrite lookup_empty in Hm.
Qed.

Lemma enhance_city_pop_prompt_nonempty base_prompt mood hour p :
  _enhance_city_pop_prompt base_prompt mood hour = Ok p → p ≠ EmptyString.
Proof.
  unfold _enhance_city_pop_prompt.
  destruct (if bool_decide _ then _ else _) as [mood_template|]; [|done].
  simpl. intros [= <-]. apply append_nonempty_r.
  repeat case_match; done.
Qed.

(** A mood that is not a key of the table is treated as 'chill'. *)
Lemma enhance_city_pop_prompt_unknown base_prompt mood hour :
  city_pop_templates !! mood = None →
  _enhance_city_pop_prompt base_prompt mood hour
  = _enhance_city_pop_prompt base_prompt "chill" hour.
Proof.
  intros Hm. unfold _enhance_city_pop_prompt.
  rewrite (bool_decide_eq_false_2 (is_Some (city_pop_templates !! mood)))
    by (rewrite Hm; by intros [? ?]).
  by rewrite (bool_decide_eq_true_2 (is_Some (city_pop_templates !! "chill")))
    by done.
Qed.

Lemma enhance_prompt_total base_prompt mood metadata current_hour month :
  ∃ p, _enhance_prompt base_prompt mood metadata current_hour month = Ok p ∧
       p ≠ EmptyString.
Proof.
  unfold _enhance_prompt.
  assert (∃ enhanced,
            (if bool_decide (is_Some (mood_prompts !! mood))
             then options ← getitem mood_prompts mood;
                  mood_element ← index options 0;
                  mret (base_prompt +:+ ", " +:+ mood_element)
             else mret base_prompt) = Ok enhanced) as [enhanced ->].
  { case_bool_decide as Hin; [|by eexists].
    destruct Hin as [options Hm]. unfold getitem. rewrite Hm.
    destruct (mood_prompts_first _ _ Hm) as (first & rest & -> & _).
    by eexists. }
  simpl.
  assert (∃ theme,
            getitem time_themes
              (if (5 <=? current_hour) && (current_hour <? 12) then "morning"
               else if (12 <=? current_hour) && (current_hour <? 17)
                    then "afternoon"
               else if (17 <=? current_hour) && (current_hour <? 21)
                    then "evening"
               else if (21 <=? current_hour) && (current_hour <? 24)
                    then "night"
               else "late_night") = Ok theme) as [theme ->].
  { repeat case_match; by eexists. }
  simpl.
  assert (∃ season,
            getitem seasonal_themes
              (if bool_decide (month ∈ [3; 4; 5]) then "spring"
               else if bool_decide (month ∈ [6; 7; 8]) then "summer"
               else if bool_decide (month ∈ [9; 10; 11]) then "autumn"
               else "winter") = Ok season) as [season ->].
  { repeat case_match; by eexists. }
  simpl. eexists. split; [done|].
  apply append_nonempty_r. done.
Qed.

(** C8. No mood makes prompt construction fail.  [_enhance_city_pop_prompt]
    and the prompt of [create_mood_background] are defined and not empty
    for every mood string, and so is [_enhance_prompt]; for a mood that
    is not in the table each falls back on one fixed default, the first
    'chill' template for music and the abstract-patterns prompt for
    backgrounds, which is also what the mood "general" gets. *)
Theorem unknown_mood_falls_back :
  (∀ base_prompt mood hour,
     ∃ p, _enhance_city_pop_prompt base_prompt mood hour = Ok p ∧
          p ≠ EmptyString) ∧
  (∀ base_prompt mood hour,
     city_pop_templates !! mood = None →
     _enhance_city_pop_prompt base_prompt mood hour
     = _enhance_city_pop_prompt base_prompt "chill" hour ∧
     _enhance_city_pop_prompt base_prompt mood hour
     = _enhance_city_pop_prompt base_prompt "general" hour) ∧
  (∀ (R : Type) (generate_background : string → string → R) mood user_request,
     ∃ prompt,
       create_mood_background generate_background mood user_request
       = Ok (generate_background prompt mood) ∧
       prompt ≠ EmptyString ∧
       (mood_prompts !! mood = None →
        prompt =
          match user_request with
          | Some user_request =>
              if nonempty user_request
              then "abstract flowing patterns with gentle movement"
                   +:+ ", inspired by: " +:+ user_request
              else "abstract flowing patterns with gentle movement"
          | None => "abstract flowing patterns with gentle movement"
          end)) ∧
  (∀ base_prompt mood metadata current_hour month,
     (∃ p, _enhance_prompt base_prompt mood metadata current_hour month = Ok p ∧
           p ≠ EmptyString) ∧
     (mood_prompts !! mood = None →
      _enhance_prompt base_prompt mood metadata current_hour month
      = _enhance_prompt base_prompt "general" metadata current_hour month)).
Proof.
  split; [|split; [|split]].
  - intros base_prompt mood hour.
    destruct (enhance_city_pop_prompt_total base_prompt mood hour) as [p Hp].
    exists p. split; [done|]. by eapply enhance_city_pop_prompt_nonempty.
  - intros base_prompt mood hour Hm. split.
    + by apply enhance_city_pop_prompt_unknown.
    + rewrite (enhance_city_pop_prompt_unknown _ "general") by done.
      by apply enhance_city_pop_prompt_unknown.
  - intros R generate_background mood user_request.
    unfold create_mood_background.
    destruct (mood_prompts !! mood) as [options|] eqn:Hm.
    + rewrite bool_decide_eq_true_2 by eauto.
      unfold getitem. rewrite Hm.
      destruct (mood_prompts_first _ _ Hm) as (first & rest & -> & Hne).
      simpl. eexists. split; [done|]. split; [|done].
      destruct user_request as [user_request|]; [|done].
      destruct (nonempty user_request); [|done].
      by destruct first.
    + rewrite bool_decide_eq_false_2 by (by intros [? ?]).
      simpl. eexists. split; [done|]. split; [|done].
      destruct user_request as [user_request|]; [|done].
      by destruct (nonempty user_request).
  - intros base_prompt mood metadata current_hour month. split.
    + apply enhance_prompt_total.
    + intros Hm. unfold _enhance_prompt.
      rewrite (bool_decide_eq_false_2 (is_Some (mood_prompts !! mood)))
        by (rewrite Hm; by intros [? ?]).
      by rewrite (bool_decide_eq_false_2 (is_Some (mood_prompts !! "general")))
        by (by intros [? ?]).
Qed.

Lemma unknown_mood_falls_back_witness :
  _enhance_city_pop_prompt "rainy night" "dreamy" 23
  = _enhance_city_pop_prompt "rainy night" "chill" 23 ∧
  _enhance_city_pop_prompt "rainy night" "dreamy" 23
  = _enhance_city_pop_prompt "rainy night" "general" 23.
Proof.
  apply (proj1 (proj2 unknown_mood_falls_back) "rainy night" "dreamy" 23).
  reflexivity.
Defined.

Example unknown_mood_prompts :
  _enhance_city_pop_prompt "rainy night" "dreamy" 23
  = Ok ("Relaxing city pop with smooth bass and dreamy synths, perfect for studying"
        +:+ ", rainy night"
        +:+ ", city pop genre, retro aesthetic, high quality production"
        +:+ ", late night vibes, intimate atmosphere") ∧
  create_mood_background pair "dreamy" (Some "neon rain")
  = Ok ("abstract flowing patterns with gentle movement, inspired by: neon rain",
        "dreamy") ∧
  _enhance_prompt "neon rain" "dreamy" None 23 11
  = Ok ("neon rain"
        +:+ ", dark blues and purples, starry effects, peaceful atmosphere"
        +:+ ", orange and red leaves, cozy atmosphere, harvest colors"
        +:+ ", seamless loop animation, 30 seconds, smooth transitions, "
        +:+ "abstract style suitable for background, no text or logos, "
        +:+ "continuous motion, 1920x1080 resolution").
Proof. by vm_compute. Qed.

(** * More of the code *)

Import suno_calls.

(** Membership in a list that is written out. *)
Ltac elem := solve [repeat constructor].

(** ** What every call keeps *)

Lemma extend_music_client w self fs existing_track extension_prompt :
  let self0 := _reset_daily_usage_if_needed (today (e_world w)) self in
  let '(self', _, r) := extend_music w self fs existing_track extension_prompt in
  (self' = self0 ∧ r = None) ∨
  (self' = _track_usage self0 ∧
   (cost_estimate (daily_usage self0) < daily_budget self0)%Q).
Proof.
  unfold extend_music, _check_budget.
  set (self0 := _reset_daily_usage_if_needed (today (e_world w)) self). simpl.
  destruct (Qltb _ _) eqn:Hlt; simpl; [|by left].
  apply Qltb_lt in Hlt.
  destruct (post_extend w _) as [|status [result|]]; [by left| |];
    destruct (status =? 200); try (by left).
  destruct (_process_generation_result _ _ _ _ _ _ _) as [fs' r].
  by right.
Qed.

Section kept.

(** A property of the client that the lazy reset, a recording that
    follows a passed budget check, and a change of model all keep. *)
Variable P : SunoAPIClient → Prop.
Hypothesis P_reset : ∀ today self,
  P self → P (_reset_daily_usage_if_needed today self).
Hypothesis P_track : ∀ self,
  P self → (cost_estimate (daily_usage self) < daily_budget self)%Q →
  P (_track_usage self).
Hypothesis P_model : ∀ model self,
  models !! model ≠ None → P self →
  P (set_current_model (default model (models !! model)) self).

Lemma generate_music_keeps w self fs prompt mood metadata :
  P self → P (generate_music w self fs prompt mood metadata).1.1.
Proof.
  intros HP.
  pose proof (generate_music_client w self fs prompt mood metadata) as H.
  destruct (generate_music _ _ _ _ _ _) as [[self' fs'] r]; simpl in *.
  destruct H as [[-> _]|(-> & Hlt & _)]; auto.
Qed.

Lemma extend_music_keeps w self fs existing_track extension_prompt :
  P self → P (extend_music w self fs existing_track extension_prompt).1.1.
Proof.
  intros HP.
  pose proof (extend_music_client w self fs existing_track extension_prompt)
    as H.
  destruct (extend_music _ _ _ _ _) as [[self' fs'] r]; simpl in *.
  destruct H as [[-> _]|(-> & Hlt)]; auto.
Qed.

Lemma generate_batch_keeps prompts mood : ∀ self fs,
  P self → P (generate_batch prompts mood self fs).1.1.
Proof.
  induction prompts as [|[[today w] prompt] rest IH]; intros self fs HP;
    [done|].
  simpl. unfold _check_budget. simpl.
  destruct (Qltb _ _); simpl; [|by apply P_reset].
  pose proof (generate_music_keeps w
                (_reset_daily_usage_if_needed today self) fs prompt mood None
                (P_reset _ _ HP)) as HP'.
  destruct (generate_music _ _ _ _ _ _) as [[self1 fs1] r]. simpl in HP'.
  specialize (IH self1 fs1 HP').
  by destruct (generate_batch rest mood self1 fs1) as [[self2 fs2] results].
Qed.

Lemma make_keeps c self fs : P self → P (make c self fs).1.
Proof.
  intros HP. destruct c as [w p m md|w et ep|prompts m|today|quality]; simpl.
  - by apply generate_music_keeps.
  - by apply extend_music_keeps.
  - by apply generate_batch_keeps.
  - by apply P_reset.
  - unfold set_model_quality.
    destruct (models !! quality) as [model|] eqn:Hq; [|done].
    specialize (P_model quality self). rewrite Hq in P_model.
    by apply P_model.
Qed.

Lemma run_calls_keeps calls : ∀ self fs,
  P self → P (run_calls calls self fs).1.
Proof.
  induction calls as [|c rest IH]; intros self fs HP; [done|].
  simpl. pose proof (make_keeps c self fs HP) as HP'.
  destruct (make c self fs) as [self' fs']. by apply IH.
Qed.

End kept.




(** X3. A quality that is not one of balanced, high_quality and advanced
    changes nothing, and after any sequence of calls the model in use is
    one of v3_5, v4 and v4_5. *)
Theorem model_is_always_known :
  (∀ quality self,
     models !! quality = None → set_model_quality quality self = self) ∧
  (∀ budget today0 calls fs,
     current_model (run_calls calls (__init__ budget today0) fs).1
       ∈ ["v3_5"; "v4"; "v4_5"]).
Proof.
  split.
  - intros quality self Hq. unfold set_model_quality. by rewrite Hq.
  - intros budget today0 calls fs.
    apply (run_calls_keeps (λ self, current_model self ∈ ["v3_5"; "v4"; "v4_5"])).
    + intros today self H. unfold _reset_daily_usage_if_needed.
      by case_bool_decide.
    + done.
    + intros model self Hm _. simpl.
      destruct (models !! model) as [v|] eqn:Hv; [|done]. simpl.
      unfold models in Hv. simpl in Hv.
      repeat (apply lookup_insert_Some in Hv as [[_ <-]|[_ Hv]];
              [elem|]).
      by rewrite lookup_empty in Hv.
    + elem.
Qed.

(** ** Statistics and the gate *)




(** X5. A call of [generate_music] leaves the counter dated with the day
    of its budget check; when that day is not the day the counter was
    dated with, what the counter held is gone: it shows no generation, or
    the one of this call at the cost of one. *)
Theorem new_day_starts_from_zero w self fs prompt mood metadata :
  last_reset (daily_usage self) ≠ today w →
  let u := daily_usage (generate_music w self fs prompt mood metadata).1.1 in
  last_reset u = today w ∧
  ((generations u = 0 ∧ cost_estimate u = 0%Q) ∨
   (generations u = 1 ∧ cost_estimate u = (0 + cost_per_generation)%Q)).
Proof.
  intros Hday.
  pose proof (generate_music_client w self fs prompt mood metadata) as H.
  destruct (generate_music _ _ _ _ _ _) as [[self' fs'] r]; simpl in *.
  assert (daily_usage (_reset_daily_usage_if_needed (today w) self)
          = {| generations := 0; cost_estimate := 0; last_reset := today w |})
    as Hreset.
  { unfold _reset_daily_usage_if_needed.
    by rewrite bool_decide_eq_true_2. }
  destruct H as [[-> _]|(-> & _)]; simpl; rewrite Hreset; simpl; eauto.
Qed.

Lemma new_day_starts_from_zero_witness :
  let self :=
    _track_usage (_track_usage (__init__ (60 # 100) 739193)) in
  let u :=
    daily_usage
      (generate_music (sample_world (completed "https://cdn/a.mp3") serves)
         self ∅ "rainy night" "chill" None).1.1 in
  last_reset u = 739194 ∧
  ((generations u = 0 ∧ cost_estimate u = 0%Q) ∨
   (generations u = 1 ∧ cost_estimate u = (0 + cost_per_generation)%Q)).
Proof.
  intros self.
  apply (new_day_starts_from_zero
           (sample_world (completed "https://cdn/a.mp3") serves) self).
  by vm_compute.
Defined.

(** ** What a download does to the disk *)

Lemma write_chunks_other filepath chunks p : ∀ fs,
  p ≠ filepath → (write_chunks filepath chunks fs).1 !! p = fs !! p.
Proof.
  induction chunks as [|[chunk|e] rest IH]; intros fs Hp; simpl; [done| |done].
  rewrite IH by done. by rewrite lookup_insert_ne.
Qed.

Lemma write_chunks_keeps filepath chunks p : ∀ fs,
  is_Some (fs !! p) → is_Some ((write_chunks filepath chunks fs).1 !! p).
Proof.
  induction chunks as [|[chunk|e] rest IH]; intros fs Hp; simpl; [done| |done].
  apply IH. destruct (decide (filepath = p)) as [->|Hne].
  - rewrite lookup_insert_eq. eauto.
  - by rewrite lookup_insert_ne.
Qed.

Lemma write_chunks_interrupted filepath received e rest : ∀ fs content,
  fs !! filepath = Some content →
  write_chunks filepath ((Ok <$> received) ++ Raise e :: rest)%list fs
  = (<[filepath := (content ++ concat received)%list]> fs, false).
Proof.
  induction received as [|chunk received IH]; intros fs content Hfs; simpl.
  - by rewrite app_nil_r, insert_id.
  - rewrite Hfs. simpl.
    rewrite (IH _ (content ++ chunk)%list) by apply lookup_insert_eq.
    by rewrite insert_insert_eq, <- app_assoc.
Qed.

Lemma download_audio_disk w fs audio_url p :
  let fs' := (_download_audio w fs audio_url).1 in
  (p ≠ audio_path w → fs' !! p = fs !! p) ∧
  (is_Some (fs !! p) → is_Some (fs' !! p)).
Proof.
  unfold _download_audio, audio_path.
  destruct (makedirs w); [|done].
  destruct audio_url as [| | |url| |]; try done.
  destruct (http_get w url) as [|status chunks]; [done|].
  destruct (status =? 200); [|done].
  destruct (open_wb w _); [|done].
  destruct (write_chunks _ _ _) as [fs1 written] eqn:Hw. simpl.
  assert (fs1 = (write_chunks
                   ("music/" +:+ ("cityPop_" +:+ strftime w +:+ ".mp3"))
                   chunks
                   (<["music/" +:+ ("cityPop_" +:+ strftime w +:+ ".mp3")
                      := []]> fs)).1) as -> by (by rewrite Hw).
  split.
  - intros Hp. rewrite write_chunks_other by done.
    by rewrite lookup_insert_ne.
  - intros Hp. apply write_chunks_keeps.
    destruct (decide ("music/" +:+ ("cityPop_" +:+ strftime w +:+ ".mp3") = p))
      as [->|Hne].
    + rewrite lookup_insert_eq. eauto.
    + by rewrite lookup_insert_ne.
Qed.

Lemma process_generation_result_disk self w fs result prompt mood metadata p :
  let fs' :=
    (_process_generation_result self w fs result prompt mood metadata).1 in
  (p ≠ audio_path w → fs' !! p = fs !! p) ∧
  (is_Some (fs !! p) → is_Some (fs' !! p)).
Proof.
  unfold _process_generation_result.
  match goal with
  | |- context [match ?u with Ok _ => _ | Raise _ => _ end] =>
      destruct u as [audio_url|]; [|done]
  end.
  destruct (truthy audio_url); [|done]. simpl.
  pose proof (download_audio_disk w fs audio_url p) as H.
  destruct (_download_audio w fs audio_url) as [fs1 [audio_filename|]];
    [|done].
  by destruct (nonempty audio_filename).
Qed.

Lemma generate_music_disk w self fs prompt mood metadata p :
  let fs' := (generate_music w self fs prompt mood metadata).1.2 in
  (p ≠ audio_path w → fs' !! p = fs !! p) ∧
  (is_Some (fs !! p) → is_Some (fs' !! p)).
Proof.
  unfold generate_music.
  destruct (_check_budget _ _) as [self1 within]. destruct within; [|done].
  simpl. destruct (_enhance_city_pop_prompt _ _ _) as [enhanced|]; [|done].
  destruct (post_generate w _) as [|status [result|]]; [done| |];
    destruct (status =? 200); try done.
  pose proof (process_generation_result_disk (_track_usage self1) w fs result
                enhanced mood metadata p) as H.
  by destruct (_process_generation_result _ _ _ _ _ _ _) as [fs1 r].
Qed.

(** X6. [generate_music] writes to one path only,
    music/cityPop_<timestamp>.mp3: every other path holds after the call
    what it held before, and no file that was there is gone. *)
Theorem generate_music_writes_one_file w self fs prompt mood metadata p :
  p ≠ "music/" +:+ ("cityPop_" +:+ strftime w +:+ ".mp3") →
  (generate_music w self fs prompt mood metadata).1.2 !! p = fs !! p ∧
  ∀ p', is_Some (fs !! p') →
        is_Some ((generate_music w self fs prompt mood metadata).1.2 !! p').
Proof.
  intros Hp. split.
  - by apply generate_music_disk.
  - intros p'. apply generate_music_disk.
Qed.

Lemma generate_music_writes_one_file_witness :
  (generate_music (sample_world (completed "https://cdn/a.mp3") serves)
     (__init__ (60 # 100) 739194) {["music/old.mp3" := [Byte.x01]]}
     "rainy night" "chill" None).1.2 !! "music/old.mp3"
  = ({["music/old.mp3" := [Byte.x01]]} : files) !! "music/old.mp3" ∧
  ∀ p', is_Some (({["music/old.mp3" := [Byte.x01]]} : files) !! p') →
        is_Some ((generate_music
                    (sample_world (completed "https://cdn/a.mp3") serves)
                    (__init__ (60 # 100) 739194)
                    {["music/old.mp3" := [Byte.x01]]}
                    "rainy night" "chill" None).1.2 !! p').
Proof. apply generate_music_writes_one_file. by vm_compute. Defined.

(** X7. A download that breaks off in the middle of the body returns
    None and leaves a file all the same: the path holds the chunks that
    arrived before the break, and what it held before is lost. *)
Theorem interrupted_download_leaves_part w fs url received e rest :
  makedirs w = Ok () →
  http_get w url = Response 200 ((Ok <$> received) ++ Raise e :: rest)%list →
  open_wb w ("music/" +:+ ("cityPop_" +:+ strftime w +:+ ".mp3")) = Ok () →
  _download_audio w fs (JStr url)
  = (<["music/" +:+ ("cityPop_" +:+ strftime w +:+ ".mp3")
       := concat received]> fs, None).
Proof.
  intros Hmk Hget Hopen. unfold _download_audio.
  rewrite Hmk, Hget. simpl. rewrite Hopen.
  rewrite (write_chunks_interrupted _ _ _ _ _ []) by apply lookup_insert_eq.
  simpl. by rewrite insert_insert_eq.
Qed.

Lemma interrupted_download_leaves_part_witness :
  _download_audio
    (sample_world (completed "https://cdn/a.mp3")
       (λ _, Response 200 ((Ok <$> [[Byte.x49; Byte.x44]])
                           ++ Raise ClientError :: [Ok [Byte.x33]])%list))
    {["music/cityPop_20241104_141500.mp3" := [Byte.x01; Byte.x02; Byte.x03]]}
    (JStr "https://cdn/a.mp3")
  = (<["music/" +:+ ("cityPop_" +:+ "20241104_141500" +:+ ".mp3")
       := concat [[Byte.x49; Byte.x44]]]>
       {["music/cityPop_20241104_141500.mp3"
         := [Byte.x01; Byte.x02; Byte.x03]]}, None).
Proof.
  apply (interrupted_download_leaves_part
           (sample_world (completed "https://cdn/a.mp3")
              (λ _, Response 200 ((Ok <$> [[Byte.x49; Byte.x44]])
                                  ++ Raise ClientError :: [Ok [Byte.x33]])%list))
           _ "https://cdn/a.mp3" [[Byte.x49; Byte.x44]] ClientError
           [Ok [Byte.x33]]); reflexivity.
Defined.

(** ** What a returned track holds *)

Lemma reset_current_model today self :
  current_model (_reset_daily_usage_if_needed today self) = current_model self.
Proof. unfold _reset_daily_usage_if_needed. by case_bool_decide. Qed.

Lemma process_generation_result_fields self w fs result prompt mood metadata
  fs' t :
  _process_generation_result self w fs result prompt mood metadata
    = (fs', Some t) →
  suno_api_client.prompt t = prompt ∧
  suno_api_client.mood t = mood ∧
  model_version t = current_model self ∧
  suno_api_client.metadata t = default ∅ metadata ∧
  suno_api_client.filename t = audio_path w ∧
  is_Some (fs' !! suno_api_client.filename t).
Proof.
  intros H.
  pose proof (process_generation_result_Some _ _ _ _ _ _ _ _ _ H)
    as [audio_url Hdl].
  apply download_audio_Some in Hdl as (Hpath & url & data & _ & _ & Hfs).
  split_and!; [| | | |done|by rewrite Hfs].
  all: unfold _process_generation_result in H.
  all: match type of H with
       | context [match ?u with Ok _ => _ | Raise _ => _ end] =>
           destruct u as [audio_url'|]; [|done]
       end.
  all: destruct (truthy audio_url'); [|done]; simpl in H.
  all: destruct (_download_audio w fs audio_url') as [fs1 [name|]]; [|done].
  all: destruct (nonempty name); [|done].
  all: destruct result; try done; simpl in H.
  all: injection H as _ <-; simpl; try done.
  destruct metadata as [md|]; [|done]. simpl. by case_bool_decide.
Qed.

Lemma generate_music_track w self fs prompt mood metadata self' fs' t :
  generate_music w self fs prompt mood metadata = (self', fs', Some t) →
  _enhance_city_pop_prompt prompt mood (hour w)
    = Ok (suno_api_client.prompt t) ∧
  suno_api_client.mood t = mood ∧
  model_version t = current_model self ∧
  suno_api_client.metadata t = default ∅ metadata ∧
  suno_api_client.filename t
    = "music/" +:+ ("cityPop_" +:+ strftime w +:+ ".mp3") ∧
  is_Some (fs' !! suno_api_client.filename t).
Proof.
  unfold generate_music, _check_budget. simpl.
  destruct (Qltb _ _); [|done]. simpl.
  destruct (_enhance_city_pop_prompt _ _ _) as [enhanced|]; [|done].
  destruct (post_generate w _) as [|status [result|]]; [done| |];
    destruct (status =? 200); try done.
  destruct (_process_generation_result _ _ _ _ _ _ _) as [fs1 r] eqn:Hp.
  intros [= <- <- ->].
  apply process_generation_result_fields in Hp
    as (-> & Hmood & Hmodel & Hmeta & Hname & Hfile).
  split_and!; try done.
  rewrite Hmodel. simpl. apply reset_current_model.
Qed.

(** X8. A track [generate_music] returns carries the prompt as enhanced
    for its mood and hour, not as requested, with the mood, the model in
    use and the metadata of the request (none counting as empty), and
    its filename is the path of the download, a file on disk. *)
Theorem generated_track_fields w self fs prompt mood metadata self' fs' t :
  generate_music w self fs prompt mood metadata = (self', fs', Some t) →
  _enhance_city_pop_prompt prompt mood (hour w)
    = Ok (suno_api_client.prompt t) ∧
  suno_api_client.mood t = mood ∧
  model_version t = current_model self ∧
  suno_api_client.metadata t = default ∅ metadata ∧
  suno_api_client.filename t
    = "music/" +:+ ("cityPop_" +:+ strftime w +:+ ".mp3") ∧
  is_Some (fs' !! suno_api_client.filename t).
Proof. apply generate_music_track. Qed.

Lemma generated_track_fields_witness :
  match (generate_music (sample_world (completed "https://cdn/a.mp3") serves)
           (__init__ (60 # 100) 739194) ∅ "rainy night" "dreamy" None).2 with
  | Some t =>
      suno_api_client.mood t = "dreamy" ∧
      suno_api_client.filename t
        = "music/" +:+ ("cityPop_" +:+ "20241104_141500" +:+ ".mp3")
  | None => False
  end.
Proof.
  destruct (generate_music (sample_world (completed "https://cdn/a.mp3") serves)
              (__init__ (60 # 100) 739194) ∅ "rainy night" "dreamy" None)
    as [[self' fs'] [t|]] eqn:Hg.
  - destruct (generated_track_fields _ _ _ _ _ _ _ _ _ Hg)
      as (_ & Hmood & _ & _ & Hname & _).
    by split.
  - by vm_compute in Hg.
Defined.

(** X9. A track [extend_music] returns carries the extension prompt as
    given, the mood "extended", the metadata {'type': 'extension'} and
    the model in use; its file is on disk, and the extension is on the
    counter as one generation. *)
Theorem extended_track_fields w self fs existing_track extension_prompt
  self' fs' t :
  extend_music w self fs existing_track extension_prompt
    = (self', fs', Some t) →
  suno_api_client.prompt t = extension_prompt ∧
  suno_api_client.mood t = "extended" ∧
  suno_api_client.metadata t = {["type" := JStr "extension"]} ∧
  model_version t = current_model self ∧
  is_Some (fs' !! suno_api_client.filename t) ∧
  self' = _track_usage (_reset_daily_usage_if_needed (today (e_world w)) self).
Proof.
  unfold extend_music, _check_budget. simpl.
  destruct (Qltb _ _); [|done]. simpl.
  destruct (post_extend w _) as [|status [result|]]; [done| |];
    destruct (status =? 200); try done.
  destruct (_process_generation_result _ _ _ _ _ _ _) as [fs1 r] eqn:Hp.
  intros [= <- <- ->].
  apply process_generation_result_fields in Hp
    as (Hprompt & Hmood & Hmodel & Hmeta & Hname & Hfile).
  split_and!; try done.
  rewrite Hmodel. simpl. apply reset_current_model.
Qed.

Lemma extended_track_fields_witness :
  match (extend_music
           {| e_world := sample_world (completed "https://cdn/a.mp3") serves;
              post_extend := λ _,
                Response 200 (Ok (completed "https://cdn/b.mp3")) |}
           (__init__ (60 # 100) 739194) ∅
           "https://cdn/a.mp3" "one more chorus").2 with
  | Some t =>
      suno_api_client.prompt t = "one more chorus" ∧
      suno_api_client.mood t = "extended"
  | None => False
  end.
Proof.
  destruct (extend_music
              {| e_world := sample_world (completed "https://cdn/a.mp3") serves;
                 post_extend := λ _,
                   Response 200 (Ok (completed "https://cdn/b.mp3")) |}
              (__init__ (60 # 100) 739194) ∅
              "https://cdn/a.mp3" "one more chorus")
    as [[self' fs'] [t|]] eqn:Hg.
  - destruct (extended_track_fields _ _ _ _ _ _ _ _ Hg)
      as (Hprompt & Hmood & _).
    by split.
  - by vm_compute in Hg.
Defined.

(** ** Batches *)

Lemma generate_batch_cons today w prompt rest mood self fs :
  generate_batch ((today, w, prompt) :: rest) mood self fs
  = let '(self, within_budget) := _check_budget today self in
    if negb within_budget then (self, fs, []) else
    let '(self, fs, result) := generate_music w self fs prompt mood None in
    let '(self, fs, results) := generate_batch rest mood self fs in
    (self, fs, match result with Some t => t :: results | None => results end).
Proof. reflexivity. Qed.

Lemma generate_batch_keeps_files prompts mood p : ∀ self fs,
  is_Some (fs !! p) →
  is_Some ((generate_batch prompts mood self fs).1.2 !! p).
Proof.
  induction prompts as [|[[today w] prompt] rest IH]; intros self fs Hp;
    [done|].
  rewrite generate_batch_cons.
  destruct (_check_budget today self) as [self1 within].
  destruct within; simpl; [|done].
  pose proof (proj2 (generate_music_disk w self1 fs prompt mood None p) Hp)
    as Hp1.
  destruct (generate_music w self1 fs prompt mood None) as [[self2 fs2] r].
  simpl in Hp1. specialize (IH self2 fs2 Hp1).
  by destruct (generate_batch rest mood self2 fs2) as [[self3 fs3] results].
Qed.

(** X10. A batch returns at most one track per prompt, each with the
    mood of the batch and a file that is on disk when the batch is over;
    and a batch that starts with the budget used up returns nothing and
    leaves the disk alone. *)
Theorem batch_tracks_are_on_disk prompts mood : ∀ self fs,
  let '(self', fs', results) := generate_batch prompts mood self fs in
  (length results ≤ length prompts)%nat ∧
  Forall (λ t, suno_api_client.mood t = mood ∧
               is_Some (fs' !! suno_api_client.filename t)) results ∧
  (∀ today w prompt rest,
     prompts = (today, w, prompt) :: rest →
     (_check_budget today self).2 = false →
     results = [] ∧ fs' = fs).
Proof.
  induction prompts as [|[[today w] prompt] rest IH]; intros self fs.
  { simpl. split_and!; [done|done|]. by intros. }
  rewrite generate_batch_cons.
  destruct (_check_budget today self) as [self1 within] eqn:Hcheck.
  destruct within; simpl.
  - destruct (generate_music w self1 fs prompt mood None)
      as [[self2 fs2] r] eqn:Hg.
    specialize (IH self2 fs2).
    pose proof (generate_batch_keeps_files rest mood) as Hkeep.
    destruct (generate_batch rest mood self2 fs2) as [[self3 fs3] results]
      eqn:Hb.
    destruct IH as (Hlen & Hall & _).
    split_and!.
    + destruct r; simpl; lia.
    + destruct r as [t|]; [|done]. constructor; [|done].
      apply generate_music_track in Hg as (_ & Hmood & _ & _ & _ & Hfile).
      split; [done|].
      specialize (Hkeep (suno_api_client.filename t) self2 fs2 Hfile).
      by rewrite Hb in Hkeep.
    + intros ???? [= <- <- <- <-] Hno.
      unfold _check_budget in Hcheck. injection Hcheck as _ Hq.
      simpl in *. congruence.
  - split_and!; [lia|done|]. by intros.
Qed.

Lemma batch_tracks_are_on_disk_witness :
  let w := sample_world (completed "https://cdn/a.mp3") serves in
  let '(self', fs', results) :=
    generate_batch [(739194, w, "rainy night"); (739194, w, "sunset drive");
                    (739194, w, "harbour lights")] "chill"
      (__init__ (2 # 100) 739194) ∅ in
  (length results ≤ 3)%nat ∧
  Forall (λ t, suno_api_client.mood t = "chill" ∧
               is_Some (fs' !! suno_api_client.filename t)) results.
Proof.
  intros w.
  pose proof (batch_tracks_are_on_disk
                [(739194, w, "rainy night"); (739194, w, "sunset drive");
                 (739194, w, "harbour lights")] "chill"
                (__init__ (2 # 100) 739194) ∅) as H.
  destruct (generate_batch _ _ _ _) as [[self' fs'] results].
  destruct H as (Hlen & Hall & _). by split.
Defined.

(** ** The parser, further *)











Lemma append_cons c (s1 s2 : string) :
  String c s1 +:+ s2 = String c (s1 +:+ s2).
Proof. reflexivity. Qed.


Lemma append_assoc (s1 s2 s3 : string) :
  (s1 +:+ s2) +:+ s3 = s1 +:+ (s2 +:+ s3).
Proof. induction s1 as [|c s1 IH]; [done|]. by rewrite !append_cons, IH. Qed.





Lemma append_nil_l (s : string) : EmptyString +:+ s = s.
Proof. reflexivity. Qed.

















(** ** A batch of chat messages *)




(** ** What the pollers return, and when *)

Section steady.

Context {A : Type} (body : nat → step A) (d : Z).
Hypothesis steady : ∀ i seconds, body i = Sleep seconds → seconds = d.


(** The first pass that returns decides, if the wait is not used up
    when it is made. *)
Lemma while_waiting_first (i : nat) r start_time max_wait :
  0 ≤ d →
  (∀ j, (j < i)%nat → body j = Sleep d) →
  body i = Return r →
  d * Z.of_nat i < max_wait →
  ∀ (n k : nat) fuel,
    (k + n = i)%nat → (n < fuel)%nat →
    while_waiting fuel body k start_time max_wait
      (start_time + d * Z.of_nat k)
    = Some (r, start_time + d * Z.of_nat i).
Proof.
  intros Hd Hbefore Hi Hin. induction n as [|n IH]; intros k fuel Hk Hfuel.
  - destruct fuel as [|fuel]; [lia|]. simpl.
    replace k with i by lia.
    rewrite (proj2 (Z.ltb_lt _ _)) by lia. by rewrite Hi.
  - destruct fuel as [|fuel]; [lia|]. simpl.
    rewrite (proj2 (Z.ltb_lt _ _)) by nia.
    rewrite Hbefore by lia.
    replace (start_time + d * Z.of_nat k + d)
      with (start_time + d * Z.of_nat (S k)) by lia.
    apply IH; lia.
Qed.

End steady.

(** X15. The video poller returns what the first terminal answer says,
    ten seconds per earlier request after it was called, when that
    answer comes before the wait is used up: the job's result for
    "completed", None for "failed". *)
Theorem first_terminal_answer_decides backend job_id max_wait now (i : nat) r :
  (∀ j, (j < i)%nat → check_job (backend job_id j) = Sleep 10) →
  check_job (backend job_id i) = Return r →
  10 * Z.of_nat i < max_wait →
  _wait_for_generation backend job_id max_wait now = Some (r, now + 10 * Z.of_nat i).
Proof.
  intros Hbefore Hi Hin. unfold _wait_for_generation.
  replace now with (now + 10 * Z.of_nat 0) at 2 by lia.
  apply (while_waiting_first (λ i, check_job (backend job_id i)) 10 i r
           now max_wait ltac:(lia) Hbefore Hi Hin i 0%nat); lia.
Qed.

Lemma first_terminal_answer_decides_witness :
  _wait_for_generation (eventually "failed" 3) "job-1" 300 1000
  = Some (None, 1000 + 10 * Z.of_nat 3).
Proof.
  apply first_terminal_answer_decides.
  - intros j Hj. unfold eventually.
    by rewrite bool_decide_eq_true_2.
  - reflexivity.
  - lia.
Defined.




(** ** The workflow of an image *)

Import thunder_generate.

Lemma str_inj (a b : Z) :
  background_generator.str a = background_generator.str b → a = b.
Proof.
  unfold background_generator.str. intros H.
  apply DecimalZ.to_int_inj.
  assert (∀ z, NilZero.int_of_string (NilZero.string_of_int (Z.to_int z))
               = Some (Z.to_int z)) as Hisi.
  { intros z. apply NilZero.isi; destruct z as [|p|p]; try done;
      intros [= Hp]; by apply DecimalPos.Unsigned.to_uint_nonnil in Hp. }
  pose proof (Hisi a) as Ha. rewrite H, Hisi in Ha. by injection Ha.
Qed.

Lemma input_of_set_input n k n' k' v (wf : workflow) :
  is_Some (wf !! n') →
  input_of n k (set_input n' k' v wf)
  = if decide (n = n' ∧ k = k') then Some v else input_of n k wf.
Proof.
  intros [nd Hnd]. unfold input_of, set_input.
  destruct (decide (n = n')) as [->|Hn].
  - rewrite lookup_alter_eq, Hnd. simpl.
    destruct (decide (k = k')) as [->|Hk].
    + rewrite decide_True by done. by rewrite lookup_insert_eq.
    + rewrite decide_False by (by intros [_ ?]).
      by rewrite lookup_insert_ne.
  - rewrite lookup_alter_ne by done.
    by rewrite decide_False by (by intros [? _]).
Qed.

Lemma lookup_set_input n n' k' v (wf : workflow) :
  n ≠ n' → set_input n' k' v wf !! n = wf !! n.
Proof. intros Hn. unfold set_input. by rewrite lookup_alter_ne. Qed.

Lemma is_Some_set_input n n' k' v (wf : workflow) :
  is_Some (set_input n' k' v wf !! n) ↔ is_Some (wf !! n).
Proof.
  unfold set_input. destruct (decide (n = n')) as [->|Hn].
  - rewrite lookup_alter_eq. by rewrite fmap_is_Some.
  - by rewrite lookup_alter_ne.
Qed.

Lemma str_not_base (id : Z) (n : string) :
  8 ≤ id → n ∈ ["1"; "2"; "3"; "4"; "5"; "6"; "7"] →
  background_generator.str id ≠ n.
Proof.
  intros Hid Hn Heq.
  assert (∃ z, 1 ≤ z ≤ 7 ∧ n = background_generator.str z) as (z & Hz & ->).
  { repeat (apply elem_of_cons in Hn as [->|Hn]);
      [by exists 1|by exists 2|by exists 3|by exists 4|by exists 5
      |by exists 6|by exists 7|by apply elem_of_nil in Hn]. }
  apply str_inj in Heq. lia.
Qed.

(** The loop over the weights, from a workflow that has its nodes 2, 3
    and 5 and a [node_id] of 8 or more. *)
Lemma add_loras (ws : weights) : ∀ (wf : workflow) (id : Z),
  8 ≤ id →
  is_Some (wf !! "2") → is_Some (wf !! "3") → is_Some (wf !! "5") →
  let wf' := (fold_left add_lora ws (wf, id)).1 in
  let last :=
    match loaded ws with
    | [] => None
    | _ => Some (background_generator.str
                   (id + Z.of_nat (length (loaded ws)) - 1))
    end in
  (∀ (k : nat) name weight,
     loaded ws !! k = Some (name, weight) →
     wf' !! background_generator.str (id + Z.of_nat k)
     = Some (lora_loader name weight)) ∧
  (∀ n, n ∉ ["2"; "3"; "5"] →
        (∀ k : nat, (k < length (loaded ws))%nat →
                    n ≠ background_generator.str (id + Z.of_nat k)) →
        wf' !! n = wf !! n) ∧
  (∀ n, n ∈ ["1"; "2"; "3"; "4"; "5"; "6"; "7"] →
        is_Some (wf' !! n) ↔ is_Some (wf !! n)) ∧
  (∀ n k, n ∈ ["1"; "2"; "3"; "4"; "5"; "6"; "7"] →
          input_of n k wf' =
            match last with
            | Some id' =>
                if decide (n = "5" ∧ k = "model") then Some (output_of id' 0)
                else if decide (n = "2" ∧ k = "clip") then Some (output_of id' 1)
                else if decide (n = "3" ∧ k = "clip") then Some (output_of id' 1)
                else input_of n k wf
            | None => input_of n k wf
            end).
Proof.
  induction ws as [|[name weight] ws IH]; intros wf id Hid H2 H3 H5.
  { simpl. split_and!; by intros. }
  simpl fold_left. unfold loaded. rewrite filter_cons. simpl.
  destruct (suno_api_client.Qltb 0 weight) eqn:Hw.
  2: { rewrite decide_False by done. by apply IH. }
  rewrite decide_True by done. fold (loaded ws).
  set (sid := background_generator.str id).
  set (wf0 := <[sid := lora_loader name weight]> wf).
  set (wf1 := set_input "3" "clip" (output_of sid 1)
                (set_input "2" "clip" (output_of sid 1)
                   (set_input "5" "model" (output_of sid 0) wf0))).
  assert (∀ n, n ∈ ["1"; "2"; "3"; "4"; "5"; "6"; "7"] → sid ≠ n) as Hsid
    by (intros n Hn; by apply str_not_base).
  assert (sid ∉ ["2"; "3"; "5"]) as Hsid'.
  { intros Hin'. apply (Hsid sid); [|done].
    repeat (apply elem_of_cons in Hin' as [->|Hin']); try elem.
    by apply elem_of_nil in Hin'. }
  assert (∀ n, n ∈ ["1"; "2"; "3"; "4"; "5"; "6"; "7"] →
               is_Some (wf1 !! n) ↔ is_Some (wf !! n)) as Hsome.
  { intros n Hn. unfold wf1, wf0. rewrite !is_Some_set_input.
    rewrite lookup_insert_ne; [done|by apply Hsid]. }
  assert (∀ n, n ∉ ["2"; "3"; "5"] → wf1 !! n = wf0 !! n) as Hother.
  { intros n Hn. unfold wf1.
    rewrite !lookup_set_input; [done|..]; intros ->; apply Hn; elem. }
  destruct (IH wf1 (id + 1)) as (Hnodes & Hrest & Hkeep & Hin);
    [lia|apply Hsome; [elem|done]..|].
  cbv zeta. split_and!.
  - intros [|k] name' weight' Hk; simpl in Hk.
    + injection Hk as <- <-. rewrite Z.add_0_r. fold sid.
      rewrite Hrest.
      * rewrite Hother by done. unfold wf0. by rewrite lookup_insert_eq.
      * done.
      * intros k _ Heq. apply str_inj in Heq. lia.
    + replace (id + Z.of_nat (S k)) with (id + 1 + Z.of_nat k) by lia.
      by apply Hnodes.
  - intros n Hn Hk. rewrite Hrest.
    + rewrite Hother by done. unfold wf0. rewrite lookup_insert_ne; [done|].
      intros <-. apply (Hk 0%nat); [simpl; lia|]. by rewrite Z.add_0_r.
    + done.
    + intros k Hlt. replace (id + 1 + Z.of_nat k)
        with (id + Z.of_nat (S k)) by lia.
      apply Hk. simpl. lia.
  - intros n Hn. rewrite Hkeep by done. by apply Hsome.
  - intros n k Hn. rewrite Hin by done. simpl length.
    replace (id + Z.of_nat (S (length (loaded ws))) - 1)
      with (id + 1 + Z.of_nat (length (loaded ws)) - 1) by lia.
    assert (input_of n k wf1 =
              if decide (n = "5" ∧ k = "model") then Some (output_of sid 0)
              else if decide (n = "2" ∧ k = "clip") then Some (output_of sid 1)
              else if decide (n = "3" ∧ k = "clip") then Some (output_of sid 1)
              else input_of n k wf) as Hwf1.
    { assert (∀ n' k', n' ∈ ["1"; "2"; "3"; "4"; "5"; "6"; "7"] →
                       input_of n' k' wf0 = input_of n' k' wf) as Hwf0.
      { intros n' k' Hn'. unfold input_of, wf0.
        rewrite lookup_insert_ne; [done|by apply Hsid]. }
      assert (∀ n', n' ∈ ["1"; "2"; "3"; "4"; "5"; "6"; "7"] →
                    is_Some (wf0 !! n') ↔ is_Some (wf !! n')) as Hs0.
      { intros n' Hn'. unfold wf0.
        rewrite lookup_insert_ne; [done|by apply Hsid]. }
      unfold wf1.
      rewrite !input_of_set_input
        by (rewrite ?is_Some_set_input; apply Hs0; [elem|done]).
      rewrite Hwf0 by done.
      repeat case_decide; destruct_and?; simplify_eq; done. }
    destruct (loaded ws) as [|kv rest] eqn:Hl; simpl.
    + rewrite Hwf1. unfold sid.
      repeat case_decide; try done; do 3 f_equal; lia.
    + rewrite Hwf1. by repeat case_decide.
Qed.

(** X17. In the workflow of a request the LoRAs with a weight above zero
    (the defaults, with the weights of the request over them) are the
    nodes 8, 9, ... in the order of the weights, each a loader fed from
    the checkpoint, node 1; the sampler takes its model, and both text
    encoders their clip, from the last of them, or from the checkpoint
    when there is none.  The negative text is that of the request
    followed by the safety terms. *)
Theorem workflow_loras (seed : Z) (request : ImageGenerationRequest) :
  let wf := create_workflow seed request in
  let ls := loaded (merged_weights request) in
  let source :=
    match ls with
    | [] => "1"
    | _ => background_generator.str (7 + Z.of_nat (length ls))
    end in
  (∀ (k : nat) name weight,
     ls !! k = Some (name, weight) →
     wf !! background_generator.str (8 + Z.of_nat k)
     = Some (lora_loader name weight)) ∧
  input_of "5" "model" wf = Some (output_of source 0) ∧
  input_of "2" "clip" wf = Some (output_of source 1) ∧
  input_of "3" "clip" wf = Some (output_of source 1) ∧
  input_of "2" "text" wf = Some (JStr (prompt request)) ∧
  input_of "3" "text" wf
  = Some (JStr (negative_prompt request +:+ ", " +:+ safety_negative)).
Proof.
  unfold create_workflow.
  destruct (add_loras (merged_weights request) (base_workflow seed request) 8)
    as (Hnodes & _ & _ & Hin); [lia|by eexists..|].
  cbv zeta in *. split; [exact Hnodes|].
  rewrite !Hin by elem.
  destruct (loaded (merged_weights request)) as [|kv rest].
  - split_and!; reflexivity.
  - replace (8 + Z.of_nat (length (kv :: rest)) - 1)
      with (7 + Z.of_nat (length (kv :: rest))) by lia.
    split_and!; reflexivity.
Qed.

Lemma workflow_loras_witness :
  let request :=
    {| prompt := "anime cafe interior"; negative_prompt := "blurry";
       width := 832; height := 1216; steps := 24; cfg_scale := 3;
       sampler := "euler_ancestral"; clip_skip := 2;
       lora_weights := Some [("pony_anime_v4", 0%Q); ("film_grain", 3 # 10)] |} in
  create_workflow 1730729700 request !! background_generator.str (8 + Z.of_nat 2)
  = Some (lora_loader "film_grain" (3 # 10)).
Proof.
  intros request.
  apply (proj1 (workflow_loras 1730729700 request) 2%nat).
  reflexivity.
Defined.

Example workflow_of_a_request :
  let request :=
    {| prompt := "anime cafe interior"; negative_prompt := "blurry";
       width := 832; height := 1216; steps := 24; cfg_scale := 3;
       sampler := "euler_ancestral"; clip_skip := 2;
       lora_weights := Some [("pony_anime_v4", 0%Q); ("film_grain", 3 # 10)] |} in
  merged_weights request
  = [("thin_painting_style", 2 # 10); ("pony_anime_v4", 0%Q);
     ("genesis_quality", 4 # 10); ("film_grain", 3 # 10)] ∧
  dom (create_workflow 1730729700 request)
  = list_to_set ["1"; "2"; "3"; "4"; "5"; "6"; "7"; "8"; "9"; "10"] ∧
  input_of "5" "model" (create_workflow 1730729700 request)
  = Some (output_of "10" 0) ∧
  input_of "model" "model" (create_workflow 1730729700 request) = None ∧
  input_of "9" "model" (create_workflow 1730729700 request)
  = Some (output_of "1" 0).
Proof. by vm_compute. Qed.

(** ** What the image client returns *)

Lemma while_waiting_returned {A : Type} (body : nat → step A) fuel :
  ∀ i start_time max_wait now x t,
    while_waiting fuel body i start_time max_wait now = Some (Some x, t) →
    ∃ j, body j = Return (Some x).
Proof.
  induction fuel as [|fuel IH]; intros i start_time max_wait now x t Hw;
    [done|].
  simpl in Hw. destruct (now - start_time <? max_wait); [|done].
  destruct (body i) as [r|seconds] eqn:Hbody; [|by eapply IH].
  injection Hw as -> _. eauto.
Qed.

Lemma find_image_found c i outputs data :
  find_image c i outputs = Ok (Some data) →
  ∃ images info name,
    Some images ∈ outputs ∧ head images = Some info ∧
    thunder_image_client.filename info = Ok name ∧
    view c i name (subfolder info) (type_ info) = Response 200 (Ok data).
Proof.
  induction outputs as [|[[|info images]|] rest IH]; simpl; [done| | |].
  - intros H. destruct (IH H) as (images & info & name & Hin & Hrest).
    exists images, info, name. split; [by right|done].
  - destruct (thunder_image_client.filename info) as [name|] eqn:Hname;
      [|done].
    destruct (view c i name (subfolder info) (type_ info))
      as [|status body] eqn:Hview; [done|].
    destruct (status =? 200) eqn:Hst.
    + apply Z.eqb_eq in Hst; subst status.
      destruct body as [data'|]; [|done]. intros [= ->].
      exists (info :: images), info, name. split; [by left|done].
    + intros H. destruct (IH H) as (images' & info' & name' & Hin & Hrest).
      exists images', info', name'. split; [by right|done].
  - intros H. destruct (IH H) as (images & info & name & Hin & Hrest).
    exists images, info, name. split; [by right|done].
Qed.

(** X18. Image data the image poller returns was served by the instance:
    on some pass the queue answered 200 without the prompt in it, the
    history answered 200 with an entry for the prompt, and the first
    image of one of its nodes was fetched from /view with status 200;
    the data is the body of that answer. *)
Theorem returned_image_was_served c prompt_id max_wait now data t :
  _wait_for_completion c prompt_id max_wait now = Some (Some data, t) →
  ∃ (i : nat) queue_remaining outputs images info name,
    queue c i = Response 200 (Ok queue_remaining) ∧
    any_is prompt_id queue_remaining = Ok false ∧
    history c prompt_id i = Response 200 (Ok (Some outputs)) ∧
    Some images ∈ outputs ∧ head images = Some info ∧
    thunder_image_client.filename info = Ok name ∧
    view c i name (subfolder info) (type_ info) = Response 200 (Ok data).
Proof.
  unfold _wait_for_completion. intros H.
  apply while_waiting_returned in H as [i Hi].
  unfold check_queue in Hi.
  destruct (look_for_image c prompt_id i) as [[data'|]|] eqn:Hlook; try done.
  injection Hi as ->. unfold look_for_image in Hlook.
  destruct (queue c i) as [|status [queue_remaining|]] eqn:Hq; try done;
    destruct (status =? 200) eqn:Hst; try done.
  apply Z.eqb_eq in Hst; subst status. simpl in Hlook.
  destruct (any_is prompt_id queue_remaining) as [[]|] eqn:Hany; try done.
  simpl in Hlook.
  destruct (history c prompt_id i) as [|hstatus [[outputs|]|]] eqn:Hh;
    try done; destruct (hstatus =? 200) eqn:Hhst; try done.
  apply Z.eqb_eq in Hhst; subst hstatus. simpl in Hlook.
  apply find_image_found in Hlook
    as (images & info & name & Hin & Hhead & Hname & Hview).
  exists i, queue_remaining, outputs, images, info, name.
  split_and!; done.
Qed.

Lemma returned_image_was_served_witness :
  ∃ (i : nat) queue_remaining outputs images info name,
    thunder_image_client.queue (image_done "p-1" 3 [Byte.x89; Byte.x50]) i
      = Response 200 (Ok queue_remaining) ∧
    any_is "p-1" queue_remaining = Ok false ∧
    history (image_done "p-1" 3 [Byte.x89; Byte.x50]) "p-1" i
      = Response 200 (Ok (Some outputs)) ∧
    Some images ∈ outputs ∧ head images = Some info ∧
    thunder_image_client.filename info = Ok name ∧
    view (image_done "p-1" 3 [Byte.x89; Byte.x50]) i name (subfolder info)
      (type_ info) = Response 200 (Ok [Byte.x89; Byte.x50]).
Proof.
  apply (returned_image_was_served (image_done "p-1" 3 [Byte.x89; Byte.x50])
           "p-1" 300 1000 [Byte.x89; Byte.x50] 1006).
  by vm_compute.
Defined.

(** X19. [generate_image] raises ValueError on a client without a base
    URL or without a session, whatever the world is.  When it returns an
    image, the image data is not empty, the prompt is the request's and
    the prompt id is the one the instance gave for the workflow of the
    request with status 200; image data that comes back empty counts as
    a failure. *)
Theorem generated_image_is_not_empty (self : client) (w : image_world)
  (request : ImageGenerationRequest) :
  ((base_url self = None ∨ session self = false) →
   generate_image self w request = Raise ValueError) ∧
  (∀ r, generate_image self w request = Ok (Some r) →
        image_data r ≠ [] ∧
        i_prompt r = prompt request ∧
        parameters r = request ∧
        post_prompt w (create_workflow (seed w) request)
          = Response 200 (Ok (Some (i_prompt_id r))) ∧
        ∃ t, _wait_for_completion (comfy w) (i_prompt_id r) 300 (now w)
             = Some (Some (image_data r), t)).
Proof.
  unfold generate_image. split.
  - intros [->| Hs]; [done|].
    destruct (base_url self) as [url|]; [|done].
    destruct (nonempty url); [|done]. by rewrite Hs.
  - intros r. destruct (base_url self) as [url|]; [|done].
    destruct (nonempty url); [|done]. destruct (session self); [|done].
    cbn [negb].
    destruct (post_prompt w _) as [|status [[prompt_id|]|]] eqn:Hpost;
      try done; destruct (status =? 200) eqn:Hst; try done.
    apply Z.eqb_eq in Hst; subst status. cbn [negb].
    destruct (nonempty prompt_id); [|done]. cbn [negb].
    destruct (_wait_for_completion (comfy w) prompt_id 300 (now w))
      as [[[data|] t]|] eqn:Hwait; try done.
    destruct data as [|b data]; [done|].
    intros [= <-]. cbn [image_data i_prompt i_prompt_id parameters].
    split_and!; try done. by exists t.
Qed.

Lemma generated_image_is_not_empty_witness :
  generate_image {| base_url := None; session := true |}
    {| now := 1000; seed := 1730729700;
       post_prompt := λ _, Response 200 (Ok (Some "p-1"));
       comfy := image_done "p-1" 3 [Byte.x89; Byte.x50] |}
    {| prompt := "anime cafe interior"; negative_prompt := "blurry";
       width := 832; height := 1216; steps := 24; cfg_scale := 3;
       sampler := "euler_ancestral"; clip_skip := 2;
       lora_weights := None |}
  = Raise ValueError ∧
  ∃ r,
    generate_image {| base_url := Some "http://127.0.0.1:8188"; session := true |}
      {| now := 1000; seed := 1730729700;
         post_prompt := λ _, Response 200 (Ok (Some "p-1"));
         comfy := image_done "p-1" 3 [Byte.x89; Byte.x50] |}
      {| prompt := "anime cafe interior"; negative_prompt := "blurry";
         width := 832; height := 1216; steps := 24; cfg_scale := 3;
         sampler := "euler_ancestral"; clip_skip := 2;
         lora_weights := None |}
    = Ok (Some r) ∧
    image_data r ≠ [].
Proof.
  split.
  - apply (proj1 (generated_image_is_not_empty _ _ _)). by left.
  - eexists. split; [vm_compute; reflexivity|].
    refine (proj1 (proj2 (generated_image_is_not_empty
      {| base_url := Some "http://127.0.0.1:8188"; session := true |}
      {| now := 1000; seed := 1730729700;
         post_prompt := λ _, Response 200 (Ok (Some "p-1"));
         comfy := image_done "p-1" 3 [Byte.x89; Byte.x50] |}
      {| prompt := "anime cafe interior"; negative_prompt := "blurry";
         width := 832; height := 1216; steps := 24; cfg_scale := 3;
         sampler := "euler_ancestral"; clip_skip := 2;
         lora_weights := None |}) _ _)).
    vm_compute. reflexivity.
Defined.

(** ** Backgrounds *)

Import background_pipeline.

Lemma download_video_Some w fs generation_result fs' path :
  _download_video w fs generation_result = (fs', Some path) →
  path = video_path w ∧
  ∃ url status content,
    get_video w url = Response status content ∧
    ¬ (400 ≤ status < 600) ∧
    fs' = <[path := content]> fs.
Proof.
  unfold _download_video, video_path.
  match goal with
  | |- context [match ?u with Ok _ => _ | Raise _ => _ end] =>
      destruct u as [[| | |url| |]|]; try done
  end.
  destruct (nonempty url); [|done]. simpl.
  destruct (get_video w url) as [|status content] eqn:Hget; [done|].
  destruct ((400 <=? status) && (status <? 600)) eqn:Hst; [done|].
  destruct (save w _ content) as [|[part|]]; try done.
  intros [= <- <-]. split; [done|].
  exists url, status, content. split_and!; [done| |done].
  intros [H1 H2]. apply andb_false_iff in Hst as [Hst|Hst].
  - apply Z.leb_gt in Hst. lia.
  - apply Z.ltb_ge in Hst. lia.
Qed.

Lemma download_video_None w fs generation_result fs' :
  _download_video w fs generation_result = (fs', None) →
  ∀ p, p ≠ video_path w → fs' !! p = fs !! p.
Proof.
  unfold _download_video, video_path.
  match goal with
  | |- context [match ?u with Ok _ => _ | Raise _ => _ end] =>
      destruct u as [[| | |url| |]|]; try (by intros [= <-])
  end.
  destruct (nonempty url); [|by intros [= <-]]. simpl.
  destruct (get_video w url) as [|status content]; [by intros [= <-]|].
  destruct ((400 <=? status) && (status <? 600)); [by intros [= <-]|].
  destruct (save w _ content) as [|[part|]]; try done.
  - intros [= <-] p Hp. by rewrite lookup_insert_ne.
  - by intros [= <-].
Qed.

Lemma process_for_looping_holds w fs path content :
  fs !! path = Some content →
  let '(fs', processed) := _process_for_looping w fs path in
  fs' !! processed = Some content ∧ fs' !! path = Some content ∧
  (processed = path ∨
   (processed = replace ".mp4" "_loop.mp4" path ∧
    copy2 w path processed = Completed)).
Proof.
  intros Hfs. unfold _process_for_looping. rewrite Hfs.
  case_bool_decide as Hsame; [by eauto|].
  destruct (copy2 w path _) as [|[part|]] eqn:Hcopy.
  - rewrite lookup_insert_eq, lookup_insert_ne by done. eauto.
  - rewrite lookup_insert_ne by done. eauto.
  - eauto.
Qed.

(** X20. A background [generate_background] returns names a file that is
    on disk and holds what was downloaded, the looped copy or, when the
    copy fails, the download itself, fetched with a status that is no
    client or server error; its prompt is the prompt as given, not the
    enhanced one sent to the API, and its mood and metadata are the
    call's. *)
Theorem background_is_local_file w fs prompt mood metadata fs' b :
  generate_background w fs prompt mood metadata = (fs', Some b) →
  background_pipeline.prompt b = prompt ∧
  background_pipeline.mood b = mood ∧
  background_pipeline.metadata b = default ∅ metadata ∧
  ∃ url status content,
    get_video w url = Response status content ∧
    ¬ (400 ≤ status < 600) ∧
    fs' !! background_pipeline.filename b = Some content ∧
    fs' !! video_path w = Some content.
Proof.
  unfold generate_background.
  destruct (_enhance_prompt _ _ _ _ _) as [enhanced|]; [|done].
  destruct (_call_firefly_api w enhanced) as [generation_result|]; [|done].
  destruct (truthy generation_result); [|done].
  destruct (_download_video w fs generation_result) as [fs1 [path|]] eqn:Hdl;
    [|done].
  apply download_video_Some in Hdl
    as (Hpath & url & status & content & Hget & Hst & ->).
  pose proof (process_for_looping_holds w (<[path := content]> fs) path content
                (lookup_insert_eq _ _ _)) as Hloop.
  destruct (_process_for_looping w _ path) as [fs2 processed].
  destruct Hloop as (Hproc & Hkeep & _).
  intros [= <- <-]. simpl. split_and!; try done.
  exists url, status, content. rewrite <- Hpath. by split_and!.
Qed.

Lemma background_is_local_file_witness :
  ∃ url status content,
    get_video (sample_video_world (Response 200 (Ok (video_at "http://v/1")))
                 always_pending_job Completed) url
    = Response status content ∧
    ¬ (400 ≤ status < 600) ∧
    ({["videos/backgrounds/background_20241104_141500_loop.mp4" :=
         [Byte.x00; Byte.x01]]} ∪
     {["videos/backgrounds/background_20241104_141500.mp4" :=
         [Byte.x00; Byte.x01]]} : files)
      !! "videos/backgrounds/background_20241104_141500_loop.mp4"
    = Some content.
Proof.
  pose proof (background_is_local_file
    (sample_video_world (Response 200 (Ok (video_at "http://v/1")))
       always_pending_job Completed)
    ∅ "waves" "chill" None _ _ eq_refl) as (_ & _ & _ & url & status & content & Hget & Hst & Hfile & _).
  exists url, status, content. split_and!; [done|done|].
  vm_compute in Hfile. vm_compute. exact Hfile.
Defined.

(** X21. When the API answers the POST with a job id and no status
    request on that job ever reports it completed, whether it fails,
    stays pending or the requests break, [generate_background] returns
    None and writes nothing. *)
Theorem unfinished_job_gives_no_background w fs prompt mood metadata m job_id :
  (∀ payload, post_video w payload = Response 200 (Ok (JObj m))) →
  m !! "job_id" = Some job_id →
  (∀ i result, check_job (job_status w job_id i) ≠ Return (Some result)) →
  generate_background w fs prompt mood metadata = (fs, None).
Proof.
  intros Hpost Hid Hnever. unfold generate_background.
  destruct (_enhance_prompt _ _ _ _ _) as [enhanced|]; [|done].
  unfold _call_firefly_api. rewrite Hpost.
  cbn -[_wait_for_generation]. rewrite Hid.
  rewrite bool_decide_eq_true_2 by by eexists.
  cbn -[_wait_for_generation]. unfold _wait_for_generation.
  destruct (while_waiting _ _ _ _ _ _) as [[[result|] t]|] eqn:Hwait;
    [|done..].
  apply while_waiting_returned in Hwait as [j Hj].
  by apply Hnever in Hj.
Qed.

Lemma unfinished_job_gives_no_background_witness :
  generate_background
    (sample_video_world (Response 200 (Ok (JObj {["job_id" := JStr "job-1"]})))
       always_pending_job Completed)
    ∅ "waves" "chill" None = (∅, None).
Proof.
  apply (unfinished_job_gives_no_background _ _ _ _ _
           {["job_id" := JStr "job-1"]} (JStr "job-1")).
  - done.
  - done.
  - intros i result. vm_compute. discriminate.
Defined.

Lemma prefix_dot_false c s :
  c ≠ "."%char → String.prefix ".mp4" (String c s) = false.
Proof.
  intros Hc.
  change (String.prefix ".mp4" (String c s))
    with (if Ascii.ascii_dec "." c then String.prefix "mp4" s else false).
  by destruct (Ascii.ascii_dec "." c) as [<-|].
Qed.

Lemma replace_go_no_dot new s : ∀ rest,
  contains "." s = false →
  replace_go ".mp4" new 0 (s +:+ rest) = s +:+ replace_go ".mp4" new 0 rest.
Proof.
  induction s as [|c s IH]; intros rest Hs.
  - by rewrite !append_nil_l.
  - simpl in Hs. apply orb_false_iff in Hs as [Hc Hs].
    assert (c ≠ "."%char) as Hne.
    { intros ->. simpl in Hc. by destruct s. }
    rewrite !append_cons.
    change (replace_go ".mp4" new 0 (String c (s +:+ rest)))
      with (if String.prefix ".mp4" (String c (s +:+ rest))
            then new +:+ replace_go ".mp4" new (String.length ".mp4" - 1)
                           (s +:+ rest)
            else String c (replace_go ".mp4" new 0 (s +:+ rest))).
    by rewrite prefix_dot_false, IH.
Qed.

Lemma looped_path w :
  contains "." (background_pipeline.strftime w) = false →
  replace ".mp4" "_loop.mp4" (video_path w)
  = "videos/backgrounds/" +:+
    ("background_" +:+ background_pipeline.strftime w +:+ "_loop.mp4").
Proof.
  intros Hts. unfold replace, video_path.
  rewrite (replace_go_no_dot _ "videos/backgrounds/") by done.
  rewrite (replace_go_no_dot _ "background_") by done.
  by rewrite (replace_go_no_dot _ _ _ Hts).
Qed.

Lemma app_inj_l s : ∀ a b, s +:+ a = s +:+ b → a = b.
Proof.
  induction s as [|c s IH]; intros a b H.
  - by rewrite !append_nil_l in H.
  - rewrite !append_cons in H. injection H as H. by apply IH.
Qed.

(** X22. With a timestamp that has no dot, the returned background is
    the copy named [background_<timestamp>_loop.mp4] exactly when
    [shutil.copy2] completes; when the copy raises, the background is
    the download [background_<timestamp>.mp4] itself. *)
Theorem background_is_the_loop_or_the_download w fs prompt mood metadata fs' b :
  contains "." (background_pipeline.strftime w) = false →
  generate_background w fs prompt mood metadata = (fs', Some b) →
  let looped :=
    "videos/backgrounds/" +:+
    ("background_" +:+ background_pipeline.strftime w +:+ "_loop.mp4") in
  match copy2 w (video_path w) looped with
  | Completed => background_pipeline.filename b = looped
  | Broke _ => background_pipeline.filename b = video_path w
  end.
Proof.
  intros Hts. unfold generate_background.
  destruct (_enhance_prompt _ _ _ _ _) as [enhanced|]; [|done].
  destruct (_call_firefly_api w enhanced) as [generation_result|]; [|done].
  destruct (truthy generation_result); [|done].
  destruct (_download_video w fs generation_result) as [fs1 [path|]] eqn:Hdl;
    [|done].
  apply download_video_Some in Hdl
    as (-> & url & status & content & Hget & Hst & ->).
  unfold _process_for_looping. rewrite lookup_insert_eq, (looped_path w Hts).
  rewrite bool_decide_eq_false_2.
  2:{ unfold video_path. intros H.
      by do 3 apply app_inj_l in H. }
  cbv zeta.
  destruct (copy2 w (video_path w) _) as [|[part|]]; by intros [= <- <-].
Qed.

Lemma background_is_the_loop_or_the_download_witness :
  ∃ fs' b,
    generate_background
      (sample_video_world (Response 200 (Ok (video_at "http://v/1")))
         always_pending_job (Broke None))
      ∅ "waves" "chill" None = (fs', Some b) ∧
    background_pipeline.filename b
    = "videos/backgrounds/background_20241104_141500.mp4".
Proof.
  eexists _, _. split; [reflexivity|].
  exact (background_is_the_loop_or_the_download
    (sample_video_world (Response 200 (Ok (video_at "http://v/1")))
       always_pending_job (Broke None))
    ∅ "waves" "chill" None _ _ eq_refl eq_refl).
Defined.

Lemma weather_prompts_values condition p :
  weather_prompts !! condition = Some p →
  p ∈ ["gentle raindrops on glass, soft reflections, peaceful atmosphere";
       "warm sunlight filtering through, bright and cheerful";
       "soft cloud formations, muted lighting, calm ambiance";
       "gentle snowfall, winter wonderland, serene white landscape";
       "dramatic clouds with distant lightning, powerful yet beautiful";
       "clear skies with subtle gradients, peaceful and open"].
Proof.
  intros Hm. unfold weather_prompts in Hm. simpl in Hm.
  repeat (apply lookup_insert_Some in Hm as [[_ <-]|[_ Hm]]; [elem|]).
  by rewrite lookup_empty in Hm.
Qed.

Lemma generate_background_fields w fs prompt mood metadata fs' b :
  generate_background w fs prompt mood metadata = (fs', Some b) →
  background_pipeline.prompt b = prompt ∧
  background_pipeline.mood b = mood ∧
  background_pipeline.metadata b = default ∅ metadata.
Proof.
  unfold generate_background.
  destruct (_enhance_prompt _ _ _ _ _) as [enhanced|]; [|done].
  destruct (_call_firefly_api w enhanced) as [generation_result|]; [|done].
  destruct (truthy generation_result); [|done].
  destruct (_download_video w fs generation_result) as [fs1 [path|]]; [|done].
  destruct (_process_for_looping w fs1 path) as [fs2 processed].
  by intros [= <- <-].
Qed.

(** X23. [create_weather_background] never raises; a background it
    returns carries the weather condition as given in its metadata and
    one of the six weather prompts as its prompt, which for a condition
    outside the table is the prompt of 'clear'. *)
Theorem weather_background_records_the_weather w fs weather_condition mood :
  ∃ r,
    create_weather_background w fs weather_condition mood = Ok r ∧
    ∀ fs' b, r = (fs', Some b) →
      background_pipeline.metadata b = {["weather" := JStr weather_condition]} ∧
      background_pipeline.mood b = mood ∧
      background_pipeline.prompt b ∈
        ["gentle raindrops on glass, soft reflections, peaceful atmosphere";
         "warm sunlight filtering through, bright and cheerful";
         "soft cloud formations, muted lighting, calm ambiance";
         "gentle snowfall, winter wonderland, serene white landscape";
         "dramatic clouds with distant lightning, powerful yet beautiful";
         "clear skies with subtle gradients, peaceful and open"] ∧
      (weather_prompts !! weather_condition = None →
       background_pipeline.prompt b
       = "clear skies with subtle gradients, peaceful and open").
Proof.
  unfold create_weather_background.
  change (getitem weather_prompts "clear")
    with (Ok "clear skies with subtle gradients, peaceful and open").
  cbn [mbind result_bind mret result_ret].
  eexists. split; [reflexivity|].
  intros fs' b Hb. apply generate_background_fields in Hb as (Hp & Hm & Hmd).
  split_and!; [done|done| |].
  - rewrite Hp. destruct (weather_prompts !! weather_condition) as [p|] eqn:Hw.
    + by apply weather_prompts_values in Hw.
    + simpl. elem.
  - intros Hnone. by rewrite Hp, Hnone.
Qed.

Lemma enhance_prompt_known base_prompt mood t ts metadata current_hour month :
  mood_prompts !! mood = Some (t :: ts) →
  ∃ tail,
    _enhance_prompt base_prompt mood metadata current_hour month
    = Ok (base_prompt +:+ ", " +:+ t +:+ ", " +:+ tail).
Proof.
  intros Hm. unfold _enhance_prompt.
  rewrite (bool_decide_eq_true_2 (is_Some (mood_prompts !! mood)))
    by by eexists.
  assert (getitem mood_prompts mood = Ok (t :: ts)) as ->
    by (unfold getitem; by rewrite Hm).
  cbn [mbind result_bind].
  rewrite (eq_refl : index (t :: ts) 0%nat = Ok t).
  cbn [mbind result_bind mret result_ret].
  assert (∃ theme,
            getitem time_themes
              (if (5 <=? current_hour) && (current_hour <? 12) then "morning"
               else if (12 <=? current_hour) && (current_hour <? 17)
                    then "afternoon"
               else if (17 <=? current_hour) && (current_hour <? 21)
                    then "evening"
               else if (21 <=? current_hour) && (current_hour <? 24)
                    then "night"
               else "late_night") = Ok theme) as [theme ->].
  { repeat case_match; by eexists. }
  cbn [mbind result_bind].
  assert (∃ season,
            getitem seasonal_themes
              (if bool_decide (month ∈ [3; 4; 5]) then "spring"
               else if bool_decide (month ∈ [6; 7; 8]) then "summer"
               else if bool_decide (month ∈ [9; 10; 11]) then "autumn"
               else "winter") = Ok season) as [season ->].
  { repeat case_match; by eexists. }
  cbn [mbind result_bind mret result_ret].
  eexists. f_equal. rewrite !append_assoc. reflexivity.
Qed.

(** X24. For a mood of the table [create_mood_background] starts the
    prompt with the mood's first template, and [_enhance_prompt], which
    [generate_background] applies to that prompt, appends the same
    template again: the prompt sent to the API holds it twice. *)
Theorem mood_template_is_sent_twice mood t ts user_request current_hour month :
  mood_prompts !! mood = Some (t :: ts) →
  ∃ tail,
    create_mood_background
      (λ prompt mood, _enhance_prompt prompt mood None current_hour month)
      mood user_request
    = Ok (Ok (t +:+
              match user_request with
              | Some user_request =>
                  if nonempty user_request
                  then ", inspired by: " +:+ user_request
                  else EmptyString
              | None => EmptyString
              end +:+ ", " +:+ t +:+ ", " +:+ tail)).
Proof.
  intros Hm. unfold create_mood_background.
  rewrite bool_decide_eq_true_2 by by eexists.
  assert (getitem mood_prompts mood = Ok (t :: ts)) as ->
    by (unfold getitem; by rewrite Hm).
  cbn [mbind result_bind].
  rewrite (eq_refl : index (t :: ts) 0%nat = Ok t).
  cbn [mbind result_bind mret result_ret].
  set (prompt := match user_request with Some _ => _ | None => _ end).
  destruct (enhance_prompt_known prompt mood t ts None current_hour month Hm)
    as [tail ->].
  exists tail. do 2 f_equal.
  subst prompt. destruct user_request as [r|]; [destruct (nonempty r)|];
    rewrite ?append_assoc, ?append_nil_l; reflexivity.
Qed.

Lemma mood_template_is_sent_twice_witness :
  ∃ tail,
    create_mood_background
      (λ prompt mood, _enhance_prompt prompt mood None 14 11) "chill" None
    = Ok (Ok ("flowing abstract waves in soft pastels, gentle movement" +:+
              EmptyString +:+ ", " +:+
              "flowing abstract waves in soft pastels, gentle movement" +:+
              ", " +:+ tail)).
Proof.
  exact (mood_template_is_sent_twice "chill" _ _ None 14 11 eq_refl).
Defined.
